(** * widdler: the Cromwell client ([src/Cromwell.py])

    A shallow embedding of the [Cromwell] class of widdler, a command-line
    client of the Cromwell workflow service, and the properties of its two
    pieces of logic: the query-URL builder ([build_query_url]) and the
    workflow summary reducer ([getCalls], [explain_workflow]), together with
    the request construction of [jstart_workflow] and the constructor.

    The source is Python 2 ([filteredCalls[:limit_n]] slices the result of
    [map], which is a list only there), so [str] values are byte strings,
    [map] and [filter] are eager, [quote] is [urllib.quote], and a
    dictionary iterates its keys in an order of the interpreter's own. *)

From Stdlib Require Import String Ascii List ZArith NArith Bool Lia.
From Stdlib Require Import Decimal DecimalString Permutation.
From stdpp Require Import base list strings.

Import ListNotations.
Local Open Scope Z_scope.

(** ** Python strings *)

Module PyStr.

(** [all_chars p s]: every character of [s] satisfies [p]. *)
Fixpoint all_chars (p : ascii -> bool) (s : string) : bool :=
  match s with
  | EmptyString => true
  | String c rest => p c && all_chars p rest
  end.

(** The characters [str.isspace] accepts in a byte string (C locale):
    space, and [\t \n \v \f \r]. *)
Definition is_whitespace (c : ascii) : bool :=
  let n := Ascii.N_of_ascii c in
  (N.eqb n 32 || (N.leb 9 n && N.leb n 13))%N.

(** [s.rstrip()] *)
Fixpoint rstrip (s : string) : string :=
  match s with
  | EmptyString => EmptyString
  | String c rest =>
      match rstrip rest with
      | EmptyString => if is_whitespace c then EmptyString else String c EmptyString
      | r => String c r
      end
  end.

(** Whether the last character of [s] is whitespace. *)
Fixpoint ends_with_whitespace (s : string) : bool :=
  match s with
  | EmptyString => false
  | String c EmptyString => is_whitespace c
  | String _ rest => ends_with_whitespace rest
  end.

(** Whether [s] begins with [p]. *)
Fixpoint has_prefix (p s : string) : bool :=
  match p with
  | EmptyString => true
  | String a p' =>
      match s with
      | EmptyString => false
      | String b s' => Ascii.eqb a b && has_prefix p' s'
      end
  end.

(** [s.startswith(p)] *)
Definition startswith (s p : string) : bool := has_prefix p s.

(** The scan of [s.replace(old, new)] for a non-empty [old]: left to right,
    occurrences do not overlap; [skip] counts the characters of the
    occurrence just replaced that are still to be passed over. *)
Fixpoint replace_from (old new : string) (skip : nat) (s : string) : string :=
  match s with
  | EmptyString => EmptyString
  | String c rest =>
      match skip with
      | S k => replace_from old new k rest
      | O =>
          if has_prefix old s
          then new +:+ replace_from old new (Nat.pred (String.length old)) rest
          else String c (replace_from old new 0 rest)
      end
  end.

(** With an empty [old], Python puts [new] before every character and at
    the end. *)
Fixpoint interleave (new s : string) : string :=
  match s with
  | EmptyString => new
  | String c rest => new +:+ String c (interleave new rest)
  end.

(** [s.replace(old, new)] *)
Definition replace (old new s : string) : string :=
  match old with
  | EmptyString => interleave new s
  | _ => replace_from old new 0 s
  end.

(** The scan of [s.count(sub)] for a non-empty [sub]: the number of
    occurrences [replace] would replace. *)
Fixpoint count_from (sub : string) (skip : nat) (s : string) : nat :=
  match s with
  | EmptyString => O
  | String c rest =>
      match skip with
      | S k => count_from sub k rest
      | O =>
          if has_prefix sub s
          then S (count_from sub (Nat.pred (String.length sub)) rest)
          else count_from sub 0 rest
      end
  end.

(** [s.count(sub)] *)
Definition count (sub s : string) : nat :=
  match sub with
  | EmptyString => S (String.length s)
  | _ => count_from sub 0 s
  end.

(** [sep.join(l)] *)
Fixpoint join (sep : string) (l : list string) : string :=
  match l with
  | [] => EmptyString
  | [x] => x
  | x :: rest => x +:+ sep +:+ join sep rest
  end.

(** [str(n)] for an [int] *)
Definition str_int (z : Z) : string := NilZero.string_of_int (Z.to_int z).

(** [str(b)] for a [bool] *)
Definition str_bool (b : bool) : string := if b then "True" else "False".

(** ["%0<width>d" % n] for a non-negative [n] *)
Definition fmt_0d (width : nat) (n : N) : string :=
  let digits := NilZero.string_of_uint (N.to_uint n) in
  String.concat "" (repeat "0"%string (width - String.length digits)) +:+ digits.

(** One upper-case hexadecimal digit, as ["%X"] prints it. *)
Definition hex_digit (n : N) : ascii :=
  if (n <? 10)%N then Ascii.ascii_of_N (48 + n) else Ascii.ascii_of_N (55 + n).

(** The characters [urllib.quote] never escapes: letters, digits, [_.-]. *)
Definition always_safe (c : ascii) : bool :=
  let n := Ascii.N_of_ascii c in
  ((N.leb 65 n && N.leb n 90) || (N.leb 97 n && N.leb n 122)
   || (N.leb 48 n && N.leb n 57)
   || N.eqb n 95 || N.eqb n 46 || N.eqb n 45)%N.

(** What [quote] emits for one character, with the default [safe='/']. *)
Definition quote_char (c : ascii) : string :=
  if always_safe c || Ascii.eqb c "/"
  then String c EmptyString
  else
    let n := Ascii.N_of_ascii c in
    String "%" (String (hex_digit (n / 16)) (String (hex_digit (n mod 16)) EmptyString)).

(** [quote(s)] of [requests.utils], which is [urllib.quote]. *)
Fixpoint quote (s : string) : string :=
  match s with
  | EmptyString => EmptyString
  | String c rest => quote_char c +:+ quote rest
  end.

(** The characters [quote] writes: the safe ones, ['/'] and ['%']. *)
Definition url_safe (c : ascii) : bool :=
  always_safe c || Ascii.eqb c "/" || Ascii.eqb c "%".

(** A decimal digit. *)
Definition is_digit (c : ascii) : bool :=
  let n := Ascii.N_of_ascii c in (N.leb 48 n && N.leb n 57)%N.

(** Any character but the space. *)
Definition not_space (c : ascii) : bool := negb (Ascii.eqb c " ").

End PyStr.

(** ** [datetime.datetime] *)

Module PyDatetime.
Import PyStr.

(** The fields of a [datetime.datetime]; [utcoffset] is what
    [tzinfo.utcoffset] returns, in minutes, [None] for a naive value. *)
Record datetime := mk_datetime {
  year : N; month : N; day : N;
  hour : N; minute : N; second : N; microsecond : N;
  utcoffset : option Z
}.

(** ["%04d-%02d-%02d"] *)
Definition date_str (d : datetime) : string :=
  fmt_0d 4 (year d) +:+ "-" +:+ fmt_0d 2 (month d) +:+ "-" +:+ fmt_0d 2 (day d).

(** The sign, hours and minutes of a UTC offset, [+HH:MM]. *)
Definition offset_str (o : option Z) : string :=
  match o with
  | None => ""
  | Some m =>
      let sign := if m <? 0 then "-" else "+" in
      let a := Z.to_N (Z.abs m) in
      sign +:+ fmt_0d 2 (a / 60)%N +:+ ":" +:+ fmt_0d 2 (a mod 60)%N
  end.

(** ["%02d:%02d:%02d"], the microseconds when they are not zero, and the
    UTC offset of an aware value. *)
Definition time_str (d : datetime) : string :=
  fmt_0d 2 (hour d) +:+ ":" +:+ fmt_0d 2 (minute d) +:+ ":" +:+ fmt_0d 2 (second d)
  +:+ (if (microsecond d =? 0)%N then "" else "." +:+ fmt_0d 6 (microsecond d))
  +:+ offset_str (utcoffset d).

(** [str(d)], which is [d.isoformat(sep=' ')]. *)
Definition str_datetime (d : datetime) : string :=
  date_str d +:+ " " +:+ time_str d.

End PyDatetime.

(** ** The query-URL builder *)

Module QueryUrl.
Import PyStr PyDatetime.

(** The scalar values a query parameter takes. *)
Inductive scalar :=
| SStr (s : string)
| SInt (z : Z)
| SBool (b : bool)
| SNone.

(** A value of [url_dict]: a scalar, a list of scalars or a timestamp. *)
Inductive value :=
| VScalar (x : scalar)
| VList (items : list scalar)
| VDatetime (d : datetime).

(** ['{}'.format(x)] for a scalar, which is [str(x)]. *)
Definition format_scalar (x : scalar) : string :=
  match x with
  | SStr s => s
  | SInt z => str_int z
  | SBool b => str_bool b
  | SNone => "None"
  end.

(** ['{}{}{}'.format(key, sep, x)] *)
Definition format_pair (key sep : string) (x : scalar) : string :=
  key +:+ sep +:+ format_scalar x.

(** Lines 290-292: a [datetime] value is rebound to its quoted text. *)
Definition encode_datetime (d : datetime) : string :=
  let dt := quote (str_datetime d) +:+ "Z" in
  replace "%20" "T" dt.

(** Lines 293-297: what one [(key, value)] item appends to [url_string]
    once [value] has been rebound. The [else] branch formats whatever is
    not a list; a timestamp never reaches it, being a string by then. *)
Definition append_value (key sep : string) (v : value) (url_string : string) : string :=
  match v with
  | VList items =>
      fold_left (fun u item => u +:+ format_pair key sep item) items url_string
  | VScalar x => url_string +:+ format_pair key sep x
  | VDatetime d => url_string +:+ key +:+ sep +:+ str_datetime d
  end.

(** The body of the [for] loop over [url_dict.items()], on the loop state
    [(first, url_string)]. *)
Definition query_step (sep : string) (st : bool * string) (item : string * value)
  : bool * string :=
  let '(first, url_string) := st in
  let '(key, v) := item in
  let url_string := if negb first then url_string +:+ "&" else url_string in
  let v := match v with
           | VDatetime d => VScalar (SStr (encode_datetime d))
           | _ => v
           end in
  (false, append_value key sep v url_string).

(** What one item contributes to [url_string], the ['&'] apart. *)
Definition segment (sep : string) (item : string * value) : string :=
  snd (query_step sep (true, EmptyString) item).

(** The [url_string] the loop builds; [url_dict] is given as the list
    [url_dict.items()] iterates, in the mapping's order. *)
Definition url_string (url_dict : list (string * value)) (sep : string) : string :=
  snd (fold_left (query_step sep) url_dict (true, ""%string)).

(** [Cromwell.build_query_url(base_url, url_dict, sep)] *)
Definition build_query_url (base_url : string) (url_dict : list (string * value))
    (sep : string) : string :=
  rstrip base_url +:+ url_string url_dict sep.

(** The pair of a scalar item written as the specification has it,
    [key=value]. *)
Definition spec_pair (item : string * scalar) : string :=
  fst item +:+ "=" +:+ format_scalar (snd item).

(** The query string of a scalar mapping as the specification words it:
    [key1=val1&key2=val2&...], the pairs joined by ['&']. *)
Definition spec_query_string (items : list (string * scalar)) : string :=
  join "&" (map spec_pair items).

Definition scalar_item (item : string * scalar) : string * value :=
  (fst item, VScalar (snd item)).

End QueryUrl.

(** ** The constructor *)

Module Client.
Import PyStr.

(** The attributes [__init__] sets (the logger apart). *)
Record cromwell := mk_cromwell { port : Z; url : string }.

(** [Cromwell.__init__(host, port)] *)
Definition init (host : string) (port_arg : Z) : cromwell :=
  let p := if String.eqb host "localhost" then 8000 else port_arg in
  mk_cromwell p ("http://" +:+ host +:+ ":" +:+ str_int p +:+ "/api/workflows/v1").

End Client.

(** ** JSON values and Python dictionaries *)

Module PyJson.
Import PyStr.

(** A dictionary with string keys as the list of its items; keys are not
    repeated. A dictionary that comes from outside (a parsed document,
    an argument) is listed in the order it iterates; one the code fills
    is listed in the order the keys were stored, and the order in which
    the interpreter iterates it is a matter of its own ([dict_items]). *)
Definition dict (V : Type) := list (string * V).

(** [d.get(k)] *)
Fixpoint dict_get {V} (k : string) (d : dict V) : option V :=
  match d with
  | [] => None
  | (k', v) :: rest => if String.eqb k k' then Some v else dict_get k rest
  end.

(** [d[k] = v]: the value of an existing key is replaced, a new key is
    listed last (which is not to say that it is iterated last). *)
Fixpoint dict_set {V} (k : string) (v : V) (d : dict V) : dict V :=
  match d with
  | [] => [(k, v)]
  | (k', v') :: rest =>
      if String.eqb k k' then (k, v) :: rest else (k', v') :: dict_set k v rest
  end.

(** [d.values()] *)
Definition dict_values {V} (d : dict V) : list V := map snd d.

(** What [json.loads] returns (numbers are integers here) and
    [json.dumps] accepts. A character of a string is a code point below
    256. *)
#[warnings="-register-all"]
Inductive json :=
| JNull
| JBool (b : bool)
| JInt (n : Z)
| JStr (s : string)
| JList (items : list json)
| JDict (members : list (string * json)).

(** [v == s] for a string [s]: only an equal string is equal to it. *)
Definition json_eq_str (v : json) (s : string) : bool :=
  match v with
  | JStr t => String.eqb t s
  | _ => false
  end.

(** One lower-case hexadecimal digit, as ["%x"] prints it. *)
Definition hex_digit_lower (n : N) : ascii :=
  if (n <? 10)%N then Ascii.ascii_of_N (48 + n) else Ascii.ascii_of_N (87 + n).

(** The replacement [json.dumps] makes for one character with
    [ensure_ascii]: the quote and the backslash are escaped, the printable
    ASCII characters stand for themselves, the rest is a [\b \f \n \r \t]
    or a [\u00XX] escape. *)
Definition escape_char (c : ascii) : string :=
  let n := Ascii.N_of_ascii c in
  let bs := Ascii.ascii_of_N 92 in
  if N.eqb n 34 then String bs (String c EmptyString)
  else if N.eqb n 92 then String bs (String bs EmptyString)
  else if (N.leb 32 n && N.leb n 126)%N then String c EmptyString
  else if N.eqb n 8 then String bs "b"
  else if N.eqb n 12 then String bs "f"
  else if N.eqb n 10 then String bs "n"
  else if N.eqb n 13 then String bs "r"
  else if N.eqb n 9 then String bs "t"
  else String bs ("u00" +:+
         String (hex_digit_lower (n / 16)) (String (hex_digit_lower (n mod 16)) EmptyString)).

Fixpoint escape (s : string) : string :=
  match s with
  | EmptyString => EmptyString
  | String c rest => escape_char c +:+ escape rest
  end.

(** The double quote, as a string. *)
Definition dquote : string := String (Ascii.ascii_of_N 34) EmptyString.

(** [json.dumps(s)] for a string *)
Definition dumps_str (s : string) : string := dquote +:+ escape s +:+ dquote.

(** [json.dumps(j)] with its default separators [', '] and [': ']. *)
Fixpoint dumps (j : json) : string :=
  match j with
  | JNull => "null"
  | JBool b => if b then "true" else "false"
  | JInt n => str_int n
  | JStr s => dumps_str s
  | JList items => "[" +:+ join ", " (map dumps items) +:+ "]"
  | JDict members =>
      "{" +:+ join ", " (map (fun kv => match kv with
                                         | (k, v) => dumps_str k +:+ ": " +:+ dumps v
                                         end) members) +:+ "}"
  end.

End PyJson.

(** ** Exceptions and effects *)

Module Effects.
Import PyJson.

(** An [IOError] with its [errno] and [filename]. *)
Inductive ioerror := IOErr (errno : Z) (filename : string).

(** The exceptions the modelled code raises. *)
Inductive exn :=
| KeyError (key : json)
| IndexError
| TypeError
| AttributeError
| ValueError
| ConnectionError
| IOError (e : ioerror).

(** The outcome of an expression: a value, or an exception raised. *)
Inductive result (A : Type) :=
| Ok (a : A)
| Raise (e : exn).
Arguments Ok {A} a.
Arguments Raise {A} e.

#[global] Instance result_ret : MRet result := fun A a => Ok a.
#[global] Instance result_bind : MBind result :=
  fun A B f m => match m with Ok a => f a | Raise e => Raise e end.

(** The content of one part of a multipart form: an open file, or text. *)
Inductive content :=
| FileObj (path : string)
| Text (s : string).

(** One entry of the [files] argument of [requests.post]:
    [(filename, content, content type)]. *)
Definition part : Type := string * content * string.

(** What the program does to its surroundings, in the order it does it. *)
Inductive event :=
| EvOpen (path : string)
| EvPrint (line : string)
| EvGet (url : string)
| EvPost (url : string) (files : dict part).

(** The surroundings: the files, the service behind the HTTP requests (a
    response is given as [json.loads] returns it), the JSON parser, the
    user [getpass.getuser] reports, and the interpreter's dictionaries:
    [key_order keys] is the order in which a dictionary iterates keys
    that were stored in the order [keys]. Python 2 promises no more of
    it than that each key comes once. *)
Record environment := mk_environment {
  file_content : string -> ioerror + string;
  http_get : string -> result json;
  http_post : string -> dict part -> result json;
  json_loads : string -> result json;
  getuser : string;
  key_order : list string -> list string;
  key_order_permutes : forall keys, Permutation (key_order keys) keys
}.

(** The item of the key [k] in [d], if [d] has the key. *)
Definition dict_item {V} (d : dict V) (k : string) : list (string * V) :=
  match dict_get k d with
  | Some v => [(k, v)]
  | None => []
  end.

(** [d.items()] of a dictionary the code has filled, and the order in
    which [json.dumps(d)] writes its members: the keys in the
    interpreter's order, each with its value. *)
Definition dict_items {V} (env : environment) (d : dict V) : list (string * V) :=
  flat_map (dict_item d) (key_order env (map fst d)).

(** A statement: it runs after the events [w] and leaves its outcome and
    the events extended. An exception keeps the events made before it. *)
Definition io (A : Type) : Type := list event -> result A * list event.

#[global] Instance io_ret : MRet io := fun A a w => (Ok a, w).
#[global] Instance io_bind : MBind io :=
  fun A B f m w =>
    match m w with
    | (Ok a, w') => f a w'
    | (Raise e, w') => (Raise e, w')
    end.

(** An expression without effects, as a statement. *)
Definition lift {A} (r : result A) : io A := fun w => (r, w).

Definition emit (ev : event) : io unit := fun w => (Ok tt, w ++ [ev]).

(** [try: body except IOError as e: handler(e)] *)
Definition try_except_IOError {A} (body : io A) (handler : ioerror -> io A) : io A :=
  fun w =>
    match body w with
    | (Raise (IOError e), w') => handler e w'
    | r => r
    end.

(** [open(path)]: the file is opened, or [IOError] is raised. A path that
    is not a string is a [TypeError]. *)
Definition open (env : environment) (path : json) : io string :=
  match path with
  | JStr p =>
      fun w =>
        (match file_content env p with
         | inl e => Raise (IOError e)
         | inr text => Ok p
         end, w ++ [EvOpen p])
  | _ => lift (Raise TypeError)
  end.

(** [fh.read()] of a file [open] has opened. *)
Definition read (env : environment) (fh : string) : io string :=
  lift (match file_content env fh with
        | inl e => Raise (IOError e)
        | inr text => Ok text
        end).

(** [x[k]] for a string [k] *)
Definition getitem (x : json) (k : string) : result json :=
  match x with
  | JDict members =>
      match dict_get k members with
      | Some v => Ok v
      | None => Raise (KeyError (JStr k))
      end
  | _ => Raise TypeError
  end.

(** [x[0]] *)
Definition getitem0 (x : json) : result json :=
  match x with
  | JList (a :: _) => Ok a
  | JList [] => Raise IndexError
  | JStr (String c _) => Ok (JStr (String c EmptyString))
  | JStr EmptyString => Raise IndexError
  | JDict _ => Raise (KeyError (JInt 0))
  | _ => Raise TypeError
  end.

(** [x.values()] *)
Definition values (x : json) : result (list json) :=
  match x with
  | JDict members => Ok (dict_values members)
  | _ => Raise AttributeError
  end.

(** [filter(p, l)] of Python 2: the whole list is tested at once, and the
    first exception of [p] ends it. *)
Fixpoint py_filter {A} (p : A -> result bool) (l : list A) : result (list A) :=
  match l with
  | [] => Ok []
  | x :: rest =>
      b ← p x;
      kept ← py_filter p rest;
      mret (if b : bool then x :: kept else kept)
  end.

(** [l[:n]] *)
Definition slice_to {A} (l : list A) (n : Z) : list A :=
  if 0 <=? n then firstn (Z.to_nat n) l
  else firstn (length l - Z.to_nat (- n)) l.

End Effects.

(** ** The methods of [Cromwell] *)

Module Cromwell.
Import PyStr PyJson Effects Client.

(** [self.get(rtype, workflow_id)]: one GET request, its body parsed. *)
Definition get (env : environment) (self : cromwell) (rtype : string)
    (workflow_id : string) : io json :=
  let workflow_url :=
    if negb (String.eqb workflow_id "")
    then url self +:+ "/" +:+ workflow_id +:+ "/" +:+ rtype
    else url self +:+ "/" +:+ rtype in
  _ ← emit (EvGet workflow_url);
  lift (http_get env workflow_url).

(** [self.query_metadata(workflow_id)] *)
Definition query_metadata (env : environment) (self : cromwell) (workflow_id : string)
    : io json :=
  get env self "metadata" workflow_id.

(** The value of a ['log'] key: the text read, or the [IOError] caught. *)
Inductive log_value :=
| LogText (text : string)
| LogError (e : ioerror).

(** [log['stdout']] and [log['stderr']]: the ['name'] key, and the ['log']
    key when it has been set. *)
Record log_entry := mk_log_entry { name : json; log : option log_value }.

(** The dictionary [parse_logs] returns. *)
Record call_log := mk_call_log { stdout : log_entry; stderr : log_entry }.

(** The test of line 79, [c[0]['executionStatus'] == status]. *)
Definition first_attempt_has_status (status : string) (c : json) : result bool :=
  a ← getitem0 c;
  s ← getitem a "executionStatus";
  mret (json_eq_str s status).

(** Lines 79-80: the calls whose first attempt has the status, then the
    first attempt of each. *)
Definition filteredCalls (status : string) (call_arr : list json) : result (list json) :=
  kept ← py_filter (first_attempt_has_status status) call_arr;
  mapM getitem0 kept.

(** The [try] block of one stream: the file is opened and read; an
    [IOError] becomes the value stored. *)
Definition read_log (env : environment) (call : json) (key : string) : io log_value :=
  try_except_IOError
    (path ← lift (getitem call key);
     fh ← open env path;
     text ← read env fh;
     mret (LogText text))
    (fun e => mret (LogError e)).

(** [parse_logs(call)], lines 82-98. *)
Definition parse_logs (env : environment) (full_logs : bool) (call : json) : io call_log :=
  out_name ← lift (getitem call "stdout");
  err_name ← lift (getitem call "stderr");
  if full_logs then
    out_log ← read_log env call "stdout";
    err_log ← read_log env call "stderr";
    mret (mk_call_log (mk_log_entry out_name (Some out_log))
                      (mk_log_entry err_name (Some err_log)))
  else
    mret (mk_call_log (mk_log_entry out_name None) (mk_log_entry err_name None)).

(** [Cromwell.getCalls(status, call_arr, full_logs, limit_n)] *)
Definition getCalls (env : environment) (status : string) (call_arr : list json)
    (full_logs : bool) (limit_n : Z) : io (list call_log) :=
  filtered ← lift (filteredCalls status call_arr);
  mapM (parse_logs env full_logs) (slice_to filtered limit_n).

(** What a stored ['log'] is for a path: the text of the file, or the
    error of reading it. *)
Definition logged (env : environment) (path : string) : log_value :=
  match file_content env path with
  | inl e => LogError e
  | inr text => LogText text
  end.

(** The summary [parse_logs] makes of an attempt whose streams are at
    [out] and [err], with the logs read. *)
Definition full_summary (env : environment) (out err : string) : call_log :=
  mk_call_log (mk_log_entry (JStr out) (Some (logged env out)))
              (mk_log_entry (JStr err) (Some (logged env err))).

(** An attempt record whose ['stdout'] and ['stderr'] are path strings. *)
Definition has_paths (call : json) (out err : string) : Prop :=
  getitem call "stdout" = Ok (JStr out) /\ getitem call "stderr" = Ok (JStr err).

(** An event that reads one of the two streams of [call]. *)
Definition opens_stream (call : json) (ev : event) : Prop :=
  exists path, ev = EvOpen path
    /\ (getitem call "stdout" = Ok (JStr path) \/ getitem call "stderr" = Ok (JStr path)).

(** A value of the dictionaries [explain_workflow] returns. *)
Inductive res_value :=
| RJson (j : json)
| RJobs (jobs : list call_log).

(** The status-dependent part of [explain_workflow], lines 113-118, on
    [(explain_res, stdout_res)]. *)
Definition explain_jobs (env : environment) (result : json) (status : json)
    (explain_res stdout_res : dict res_value)
    : io (dict res_value * dict res_value) :=
  if json_eq_str status "Failed" then
    calls ← lift (getitem result "calls");
    call_arr ← lift (values calls);
    jobs ← getCalls env "RetryableFailure" call_arr true 3;
    mret (explain_res, dict_set "failed_jobs" (RJobs jobs) stdout_res)
  else if json_eq_str status "Running" then
    calls ← lift (getitem result "calls");
    call_arr ← lift (values calls);
    jobs ← getCalls env "Running" call_arr false 3;
    mret (dict_set "running_jobs" (RJobs jobs) explain_res, stdout_res)
  else mret (explain_res, stdout_res).

(** [self.explain_workflow(workflow_id, include_inputs)]; the result is
    [(explain_res, additional_res, stdout_res)]. *)
Definition explain_workflow (env : environment) (self : cromwell) (workflow_id : string)
    (include_inputs : bool)
    : io (dict res_value * dict res_value * dict res_value) :=
  result ← query_metadata env self workflow_id;
  let explain_res : dict res_value := [] in
  let additional_res : dict res_value := [] in
  let stdout_res : dict res_value := [] in
  match result with
  | JNull =>
      _ ← emit (EvPrint "Workflow not found.");
      mret (explain_res, additional_res, stdout_res)
  | _ =>
      status ← lift (getitem result "status");
      let explain_res := dict_set "status" (RJson status) explain_res in
      id ← lift (getitem result "id");
      let explain_res := dict_set "id" (RJson id) explain_res in
      root ← lift (getitem result "workflowRoot");
      let explain_res := dict_set "workflowRoot" (RJson root) explain_res in
      '(explain_res, stdout_res) ← explain_jobs env result status explain_res stdout_res;
      additional_res ←
        (if include_inputs then
           inputs ← lift (getitem result "inputs");
           mret (dict_set "inputs" (RJson inputs) additional_res)
         else mret additional_res);
      mret (explain_res, additional_res, stdout_res)
  end.

(** The options document of line 185, [{"read_from_cache":false}]. *)
Definition options_no_cache : string :=
  "{" +:+ dquote +:+ "read_from_cache" +:+ dquote +:+ ":false}".

(** The JSON arguments of [jstart_workflow], lines 164-171. *)
Definition j_args (env : environment) (json_file : string) : io string :=
  if negb (startswith json_file "{") then
    fh ← open env (JStr json_file);
    text ← read env fh;
    args ← lift (json_loads env text);
    match args with
    | JDict members =>
        mret (dumps (JDict (dict_items env (dict_set "user" (JStr (getuser env)) members))))
    | _ => lift (Raise TypeError)
    end
  else mret json_file.

(** [self.jstart_workflow(wdl_file, json_file, dependencies, wdl_string,
    disable_caching)]: the form is built and posted, the parsed response
    returned. [dependencies] is [None] or a path. *)
Definition jstart_workflow (env : environment) (self : cromwell) (wdl_file json_file : string)
    (dependencies : option string) (wdl_string disable_caching : bool) : io json :=
  args ← j_args env json_file;
  files ←
    (if negb wdl_string then
       fh ← open env (JStr wdl_file);
       mret ([ ("wdlSource", (wdl_file, FileObj fh, "application/octet-stream"));
               ("workflowInputs", ("report.csv", Text args, "application/json")) ]
             : dict part)
     else
       mret ([ ("wdlSource", ("workflow.wdl", Text wdl_file, "application/text-plain"));
               ("workflowInputs", ("report.csv", Text args, "application/json")) ]
             : dict part));
  files ←
    (match dependencies with
     | Some (String c rest as path) =>
         fh ← open env (JStr path);
         mret (dict_set "wdlDependencies" ((path, FileObj fh, "application/zip")) files)
     | _ => mret files
     end);
  files ←
    (if disable_caching then
       let files := dict_set "workflowOptions"
                      ("options.json", Text options_no_cache, "application/json") files in
       _ ← emit (EvPrint "disable_caching enabled");
       mret files
     else mret files);
  _ ← emit (EvPost (url self) files);
  lift (http_post env (url self) files).

(** The text of the [workflowInputs] part of a posted form. *)
Definition inputs_payload (files : dict part) : option string :=
  match dict_get "workflowInputs" files with
  | Some (_, Text s, _) => Some s
  | _ => None
  end.

(** A payload carries the injected user when it is the serialisation of an
    object whose ['user'] member is that user. *)
Definition has_user (user payload : string) : Prop :=
  exists members,
    dict_get "user" members = Some (JStr user) /\ payload = dumps (JDict members).

(** [open(path)] succeeds. *)
Definition readable (env : environment) (path : string) : bool :=
  match file_content env path with
  | inr _ => true
  | inl _ => false
  end.

(** The files [jstart_workflow] opens for the form itself can be opened:
    the WDL when it is a path, the dependencies when they are given. *)
Definition sources_readable (env : environment) (wdl_file : string)
    (dependencies : option string) (wdl_string : bool) : bool :=
  (wdl_string || readable env wdl_file)
  && match dependencies with
     | Some (String _ _ as path) => readable env path
     | _ => true
     end.

(** The events of [jstart_workflow] between the arguments and the POST
    request: the files opened for the form, and the line printed. *)
Definition form_events (wdl_file : string) (dependencies : option string)
    (wdl_string disable_caching : bool) : list event :=
  (if wdl_string then [] else [EvOpen wdl_file])
  ++ match dependencies with
     | Some (String _ _ as path) => [EvOpen path]
     | _ => []
     end
  ++ (if disable_caching then [EvPrint "disable_caching enabled"] else []).

End Cromwell.

(** ** A workflow to run the definitions on *)

Module Example.
Import PyStr PyJson Effects Client Cromwell.

(** The log of [/cromwell/a/stdout] can be read, no other file of the
    calls exists; [inputs.json] and [hello.wdl] are the files of a
    submission. *)
Definition files (path : string) : ioerror + string :=
  if String.eqb path "/cromwell/a/stdout" then inr "started"%string
  else if String.eqb path "inputs.json" then inr "{}"%string
  else if String.eqb path "hello.wdl" then inr "workflow hello {}"%string
  else inl (IOErr 2 path).

(** A call-attempt record. *)
Definition attempt (status out err : string) : json :=
  JDict [("executionStatus"%string, JStr status);
         ("stdout"%string, JStr out); ("stderr"%string, JStr err)].

(** Call [a] failed at once; call [b] was done, then retried and failed;
    call [c] is running. *)
Definition calls : list (string * json) :=
  [("hello.a"%string,
    JList [attempt "RetryableFailure" "/cromwell/a/stdout" "/cromwell/a/stderr";
           attempt "Done" "/cromwell/a2/stdout" "/cromwell/a2/stderr"]);
   ("hello.b"%string,
    JList [attempt "Done" "/cromwell/b/stdout" "/cromwell/b/stderr";
           attempt "RetryableFailure" "/cromwell/b2/stdout" "/cromwell/b2/stderr"]);
   ("hello.c"%string,
    JList [attempt "Running" "/cromwell/c/stdout" "/cromwell/c/stderr"])].

(** A metadata document with the given status. *)
Definition metadata (status : string) : json :=
  JDict [("status"%string, JStr status); ("id"%string, JStr "7f3a");
         ("workflowRoot"%string, JStr "/cromwell/hello/7f3a");
         ("calls"%string, JDict calls);
         ("inputs"%string, JDict [("hello.name"%string, JStr "world")])].

(** A parser that knows the empty object only. *)
Definition loads (text : string) : result json :=
  if String.eqb text "{}" then Ok (JDict []) else Raise ValueError.

(** A service that answers every GET with [doc] and every POST with
    [null], for the user [amr], on an interpreter whose dictionaries
    keep the order in which the keys were stored. *)
Definition env (doc : json) : environment :=
  mk_environment files (fun _ => Ok doc) (fun _ _ => Ok JNull) loads "amr"
    (fun keys => keys) (fun keys => Permutation_refl keys).

Definition client : cromwell := init "localhost" 9000.

End Example.

(** ** The other requests of [Cromwell] *)

Module Requests.
Import PyStr PyJson Effects Client QueryUrl Cromwell.

(** [self.post(rtype, workflow_id)]: one POST request without a form
    (the empty [files]), its body parsed. *)
Definition post (env : environment) (self : cromwell) (rtype : string)
    (workflow_id : string) : io json :=
  let workflow_url :=
    if negb (String.eqb workflow_id "")
    then url self +:+ "/" +:+ workflow_id +:+ "/" +:+ rtype
    else url self +:+ "/" +:+ rtype in
  _ ← emit (EvPost workflow_url []);
  lift (http_post env workflow_url []).

(** [self.stop_workflow(workflow_id)] *)
Definition stop_workflow (env : environment) (self : cromwell) (workflow_id : string)
    : io json :=
  post env self "abort" workflow_id.

(** [self.query_status(workflow_id)] *)
Definition query_status (env : environment) (self : cromwell) (workflow_id : string)
    : io json :=
  get env self "status" workflow_id.

(** [self.query_logs(workflow_id)] *)
Definition query_logs (env : environment) (self : cromwell) (workflow_id : string)
    : io json :=
  get env self "logs" workflow_id.

(** [self.query_outputs(workflow_id)] *)
Definition query_outputs (env : environment) (self : cromwell) (workflow_id : string)
    : io json :=
  get env self "outputs" workflow_id.

(** [self.query_backend()]: [get('backends')], the workflow id left out. *)
Definition query_backend (env : environment) (self : cromwell) : io json :=
  get env self "backends" "".

(** [self.query(query_dict)] *)
Definition query (env : environment) (self : cromwell)
    (query_dict : list (string * value)) : io json :=
  let base_url := url self +:+ "/query?" in
  let query_url := build_query_url base_url query_dict "=" in
  _ ← emit (EvGet query_url);
  lift (http_get env query_url).

(** The loop of [query_labels], lines 230-232: every label goes under the
    key ['label=' + k]. *)
Definition label_dict (labels : list (string * value)) : dict value :=
  fold_left (fun d item => dict_set ("label=" +:+ fst item) (snd item) d) labels [].

(** [self.query_labels(labels)] *)
Definition query_labels (env : environment) (self : cromwell)
    (labels : list (string * value)) : io json :=
  let query_url :=
    build_query_url (url self +:+ "/query?") (dict_items env (label_dict labels)) ":" in
  _ ← emit (EvGet query_url);
  lift (http_get env query_url).

(** The query string of a mapping of labels as [query_labels] means it,
    [label=k1:v1&label=k2:v2&...]. *)
Definition labels_query_string (labels : list (string * scalar)) : string :=
  join "&" (map (fun item => "label=" +:+ fst item +:+ ":" +:+ format_scalar (snd item))
                labels).



End Requests.

(** ** The other submissions *)

Module Submit.
Import PyStr PyJson Effects Client Cromwell.

(** The loop of [start_workflow], lines 136-138: every argument goes
    under the key [workflow_name + "." + key]. *)
Definition json_workflow_args (workflow_name : string) (workflow_args : dict json)
    : dict json :=
  fold_left (fun d item => dict_set (workflow_name +:+ "." +:+ fst item) (snd item) d)
            workflow_args [].

(** The text [start_workflow] sends as inputs, lines 136-140. *)
Definition args_string (env : environment) (workflow_name : string)
    (workflow_args : dict json) : string :=
  dumps (JDict (dict_items env
                  (dict_set "user" (JStr (getuser env))
                     (json_workflow_args workflow_name workflow_args)))).

(** [self.start_workflow(wdl_file, workflow_name, workflow_args,
    dependencies)] *)
Definition start_workflow (env : environment) (self : cromwell)
    (wdl_file workflow_name : string) (workflow_args : dict json)
    (dependencies : option string) : io json :=
  let args := args_string env workflow_name workflow_args in
  _ ← emit (EvPrint "args_string:");
  _ ← emit (EvPrint args);
  fh ← open env (JStr wdl_file);
  let files : dict part :=
    [ ("wdlSource", (wdl_file, FileObj fh, "application/octet-stream"));
      ("workflowInputs", ("report.csv", Text args, "application/json")) ] in
  files ←
    (match dependencies with
     | Some (String c rest as path) =>
         fh ← open env (JStr path);
         mret (dict_set "wdlDependencies" ((path, FileObj fh, "application/zip")) files)
     | _ => mret files
     end);
  _ ← emit (EvPost (url self) files);
  lift (http_post env (url self) files).

(** [try: body except KeyError: handler] *)
Definition try_except_KeyError {A} (body : io A) (handler : io A) : io A :=
  fun w =>
    match body w with
    | (Raise (KeyError _), w') => handler w'
    | r => r
    end.

(** [self.restart_workflow(workflow_id, disable_caching)]. The inputs are
    a string or [startswith] is an [AttributeError]. A workflow source
    that is not a string reaches [requests] as it is; what happens to it
    there is outside this code, and the model ends with a [TypeError]. *)
Definition restart_workflow (env : environment) (self : cromwell) (workflow_id : string)
    (disable_caching : bool) : io json :=
  metadata ← query_metadata env self workflow_id;
  try_except_KeyError
    (submitted ← lift (getitem metadata "submittedFiles");
     workflow_input ← lift (getitem submitted "inputs");
     submitted ← lift (getitem metadata "submittedFiles");
     wdl ← lift (getitem submitted "workflow");
     match workflow_input with
     | JStr json_file =>
         match wdl with
         | JStr wdl_file =>
             jstart_workflow env self wdl_file json_file None true disable_caching
         | _ => lift (Raise TypeError)
         end
     | _ => lift (Raise AttributeError)
     end)
    (mret JNull).

End Submit.

(** ** The commands of [widdler.py] *)

Module Widdler.
Import PyStr PyJson Effects Client Cromwell Requests.

(** What a [type=] function of [argparse] gives: the value, or an
    [ArgumentTypeError] with its message. *)
Inductive arg_result :=
| ArgValue (path : string)
| ArgumentTypeError (message : string).

(** The line feed. *)
Definition newline : string := String (Ascii.ascii_of_N 10) EmptyString.

(** [is_valid(path)]; [exists] is [os.path.exists]. *)
Definition is_valid (exists_ : string -> bool) (path : string) : arg_result :=
  if negb (exists_ path)
  then ArgumentTypeError (path +:+ " is not a valid file path." +:+ newline)
  else ArgValue path.

(** [is_valid_zip(path)]; [is_zipfile] is [zipfile.is_zipfile]. *)
Definition is_valid_zip (exists_ is_zipfile : string -> bool) (path : string)
    : arg_result :=
  match is_valid exists_ path with
  | ArgumentTypeError message => ArgumentTypeError message
  | ArgValue _ =>
      if negb (is_zipfile path)
      then ArgumentTypeError (path +:+ " is not a valid zip file." +:+ newline)
      else ArgValue path
  end.

(** The [Validator] of [src/Validator.py], which is not part of the
    sources at hand: what constructing it does, and what [validate_json]
    does and returns. *)
Record validator := mk_validator {
  construct : io unit;
  validate_json : io (list string)
}.

(** How a command ends: [sys.exit(code)], or a value returned. *)
Inductive outcome :=
| Exited (code : Z)
| Returned (response : json).

(** The message of line 50. *)
Definition errors_message (json_path : string) (errors : list string) : string :=
  json_path +:+ " input file contains the following errors:" +:+ newline
  +:+ join newline errors.

(** [call_run(args)] on [args.wdl], [args.json], [args.validate],
    [args.dependencies] and [args.server]. *)
Definition call_run (env : environment) (v : validator) (wdl json_path : string)
    (validate : bool) (dependencies : option string) (server : string) : io outcome :=
  _ ← construct v;
  stop ←
    (if validate then
       result ← validate_json v;
       if negb (Nat.eqb (length result) 0) then
         _ ← emit (EvPrint (errors_message json_path result));
         mret true
       else mret false
     else mret false);
  if stop : bool then mret (Exited (-1))
  else
    let cromwell := init server 9000 in
    response ← jstart_workflow env cromwell wdl json_path dependencies false false;
    mret (Returned response).

(** [call_query(args)] on [args.server], [args.workflow_id] and the three
    flags. *)
Definition call_query (env : environment) (server workflow_id : string)
    (status metadata logs : bool) : io (list json) :=
  let cromwell := init server 9000 in
  let responses : list json := [] in
  responses ←
    (if status then
       r ← query_status env cromwell workflow_id; mret (responses ++ [r])
     else mret responses);
  responses ←
    (if metadata then
       r ← query_metadata env cromwell workflow_id; mret (responses ++ [r])
     else mret responses);
  responses ←
    (if logs then
       r ← query_logs env cromwell workflow_id; mret (responses ++ [r])
     else mret responses);
  mret responses.

(** [call_abort(args)] *)
Definition call_abort (env : environment) (server workflow_id : string) : io json :=
  stop_workflow env (init server 9000) workflow_id.

(** The requests [call_query] makes for its flags, in their order. *)
Definition requested (status metadata logs : bool) : list string :=
  (if status then ["status"%string] else [])
  ++ (if metadata then ["metadata"%string] else [])
  ++ (if logs then ["logs"%string] else []).

End Widdler.

(** ** Validators and a service to run the commands on *)

Module ExampleRun.
Import PyJson Effects Widdler.

(** A validator that finds the inputs wanting. *)
Definition strict : validator :=
  mk_validator (mret tt : io unit)
               (mret ["hello.name is missing"%string] : io (list string)).

(** A validator that finds nothing. *)
Definition lenient : validator :=
  mk_validator (mret tt : io unit) (mret [] : io (list string)).

(** A service that cannot be reached. *)
Definition unreachable : environment :=
  mk_environment Example.files (fun _ => Raise ConnectionError) (fun _ _ => Ok JNull)
    Example.loads "amr" (fun keys => keys) (fun keys => Permutation_refl keys).

(** The service of [Example.env], on an interpreter whose dictionaries
    iterate the key stored last first. *)
Definition backwards (doc : json) : environment :=
  mk_environment Example.files (fun _ => Ok doc) (fun _ _ => Ok JNull)
    Example.loads "amr" (@rev string)
    (fun keys => Permutation_sym (Permutation_rev keys)).

End ExampleRun.

(** ** Words about traces and documents *)

Module Traces.
Import PyJson Effects.

(** An HTTP request. *)
Definition is_request (ev : event) : bool :=
  match ev with
  | EvGet _ | EvPost _ _ => true
  | _ => false
  end.

(** The opening of a file. *)
Definition is_open (ev : event) : bool :=
  match ev with
  | EvOpen _ => true
  | _ => false
  end.

(** The keys [explain_workflow] reads of every document, in the order it
    reads them. *)
Definition headline_keys : list string :=
  ["status"%string; "id"%string; "workflowRoot"%string].

(** The first of them a document lacks. *)
Definition first_missing (members : dict json) : option string :=
  find (fun k => match dict_get k members with None => true | Some _ => false end)
       headline_keys.

(** A call [getCalls] cannot test: no first attempt, or a first attempt
    without ['executionStatus']. *)
Definition malformed_call (c : json) : Prop :=
  c = JList []
  \/ exists members later,
       c = JList (JDict members :: later) /\ dict_get "executionStatus" members = None.

End Traces.

(** * Properties *)

(** ** Strings *)

Section StringFacts.
Import PyStr.

Lemma sapp_cons c s t : String c s +:+ t = String c (s +:+ t).
Proof. reflexivity. Qed.

Lemma sapp_nil_r s : s +:+ "" = s.
Proof. induction s as [|c s IH]; [reflexivity|]. rewrite sapp_cons, IH. reflexivity. Qed.

Lemma sapp_assoc s t u : (s +:+ t) +:+ u = s +:+ t +:+ u.
Proof.
  induction s as [|c s IH]; [reflexivity|].
  rewrite !sapp_cons, IH. reflexivity.
Qed.

Lemma all_chars_app p s t :
  all_chars p (s +:+ t) = all_chars p s && all_chars p t.
Proof.
  induction s as [|c s IH]; [reflexivity|].
  rewrite sapp_cons. simpl. rewrite IH, andb_assoc. reflexivity.
Qed.

Lemma all_chars_weaken (p q : ascii -> bool) s :
  (forall c, p c = true -> q c = true) ->
  all_chars p s = true -> all_chars q s = true.
Proof.
  intros Hpq. induction s as [|c s IH]; simpl; [reflexivity|].
  rewrite !andb_true_iff. intros [Hc Hs]. split; auto.
Qed.

(** [rstrip] removes a suffix of whitespace, and only that. *)
Lemma rstrip_suffix s :
  exists ws, s = rstrip s +:+ ws /\ all_chars is_whitespace ws = true.
Proof.
  induction s as [|c s [ws [Heq Hws]]].
  - exists EmptyString. split; reflexivity.
  - simpl. destruct (rstrip s) as [|c' r] eqn:Hr.
    + destruct (is_whitespace c) eqn:Hc.
      * exists (String c s). split; [reflexivity|].
        simpl. rewrite Hc. simpl. rewrite Heq. exact Hws.
      * exists ws. rewrite sapp_cons. split; [congruence | exact Hws].
    + exists ws. rewrite sapp_cons. split; [congruence | exact Hws].
Qed.

(** What [rstrip] returns does not end in whitespace. *)
Lemma rstrip_no_trailing s : ends_with_whitespace (rstrip s) = false.
Proof.
  induction s as [|a s IH]; [reflexivity|].
  simpl. destruct (rstrip s) as [|c r] eqn:Hr.
  - destruct (is_whitespace a) eqn:Ha; simpl; [reflexivity | exact Ha].
  - exact IH.
Qed.

End StringFacts.

(** ** The loop of [build_query_url] *)

Section QueryLoop.
Import PyStr PyDatetime QueryUrl.

Lemma fold_pairs_acc key sep items u :
  fold_left (fun u item => u +:+ format_pair key sep item) items u =
  u +:+ fold_left (fun u item => u +:+ format_pair key sep item) items "".
Proof.
  revert u. induction items as [|x items IH]; intros u; simpl.
  - symmetry. apply sapp_nil_r.
  - rewrite IH, (IH ("" +:+ format_pair key sep x)).
    apply sapp_assoc.
Qed.

Lemma append_value_acc key sep v u :
  append_value key sep v u = u +:+ append_value key sep v "".
Proof.
  destruct v as [x|items|d]; simpl.
  - reflexivity.
  - apply fold_pairs_acc.
  - reflexivity.
Qed.

Lemma query_step_acc sep first acc item :
  query_step sep (first, acc) item =
  (false, acc +:+ (if first then "" else "&") +:+ segment sep item).
Proof.
  destruct item as [key v]. unfold segment, query_step. simpl snd.
  f_equal. rewrite append_value_acc.
  destruct first; simpl negb; cbv iota.
  - reflexivity.
  - apply sapp_assoc.
Qed.

Lemma query_loop sep items first acc :
  snd (fold_left (query_step sep) items (first, acc)) =
  match items with
  | [] => acc
  | _ => acc +:+ (if first then "" else "&") +:+ join "&" (map (segment sep) items)
  end.
Proof.
  revert first acc. induction items as [|x items IH]; intros first acc.
  - reflexivity.
  - cbn [fold_left]. rewrite query_step_acc, IH.
    destruct items as [|y items]; [reflexivity|].
    cbn [map join]. rewrite !sapp_assoc. reflexivity.
Qed.

(** The URL is the trimmed base followed by the segments of the items,
    joined by ['&']. *)
Lemma build_query_url_segments base items sep :
  build_query_url base items sep =
  rstrip base +:+ join "&" (map (segment sep) items).
Proof.
  unfold build_query_url, url_string. rewrite query_loop.
  destruct items; reflexivity.
Qed.

Lemma join_cons sep a l :
  join sep (a :: l) = a +:+ (match l with [] => "" | _ => sep +:+ join sep l end).
Proof. destruct l; cbn [join]; [symmetry; apply sapp_nil_r | reflexivity]. Qed.

Lemma join_app_cons sep l x r :
  join sep (l ++ x :: r) =
  (match l with [] => "" | _ => join sep l +:+ sep end)
  +:+ x +:+ (match r with [] => "" | _ => sep +:+ join sep r end).
Proof.
  induction l as [|a l IH].
  - apply join_cons.
  - cbn [app]. rewrite join_cons.
    replace (match l ++ x :: r with
             | [] => ""
             | _ => sep +:+ join sep (l ++ x :: r)
             end) with (sep +:+ join sep (l ++ x :: r)) by (destruct l; reflexivity).
    rewrite IH, join_cons. destruct l as [|b l].
    + rewrite sapp_nil_r, !sapp_assoc. reflexivity.
    + rewrite !sapp_assoc. reflexivity.
Qed.

End QueryLoop.

(** ** The query-URL builder: scalar and list values *)

Section QueryUrlClaims.
Import PyStr PyDatetime QueryUrl.

(** C3. For an ordered mapping of scalar values only, [build_query_url]
    returns [base_url] without its trailing whitespace, followed by
    [key1=val1&key2=val2&...] in the order of the mapping: the pairs are
    joined by ['&'], so none stands before the first pair or after the
    last. The trimmed base differs from [base_url] by a suffix of
    whitespace and does not end in whitespace. *)
Theorem C3_scalar_mapping_joined (base_url : string) (items : list (string * scalar)) :
  build_query_url base_url (map scalar_item items) "=" =
    rstrip base_url +:+ spec_query_string items
  /\ (exists ws, base_url = rstrip base_url +:+ ws /\ all_chars is_whitespace ws = true)
  /\ ends_with_whitespace (rstrip base_url) = false.
Proof.
  split; [|split].
  - rewrite build_query_url_segments. unfold spec_query_string.
    rewrite map_map. do 2 f_equal.
  - apply rstrip_suffix.
  - apply rstrip_no_trailing.
Qed.

Example scalar_mapping_example :
  build_query_url "http://btl-cromwell:9000/api/workflows/v1/query? "
    [("status"%string, VScalar (SStr "Running")); ("page"%string, VScalar (SInt 3));
     ("name"%string, VScalar SNone); ("all"%string, VScalar (SBool true))] "=" =
  "http://btl-cromwell:9000/api/workflows/v1/query?status=Running&page=3&name=None&all=True"%string.
Proof. reflexivity. Qed.

(** The segment of a list value: the pairs of its elements, one after the
    other, with nothing between them. *)
Lemma segment_list key sep items :
  segment sep (key, VList items) =
  String.concat "" (map (format_pair key sep) items).
Proof.
  unfold segment, query_step. cbn [snd negb append_value].
  induction items as [|x items IH]; [reflexivity|].
  cbn [fold_left map]. rewrite fold_pairs_acc, IH.
  destruct items as [|y items].
  - cbn [map String.concat]. apply sapp_nil_r.
  - reflexivity.
Qed.

(** C1. On [{"label": ["a", "b"]}] the builder returns
    [label=alabel=b]: the loop over the elements of a list value (lines
    294-295) appends each pair and never the ['&'] that lines 288-289 put
    between the items of the mapping, so the two occurrences are not
    separated and the URL is not the [label=a&label=b] of the claim. *)
Theorem C1_list_elements_not_separated :
  build_query_url "http://btl-cromwell:9000/api/workflows/v1/query?"
    [("label"%string, VList [SStr "a"; SStr "b"])] "=" =
  "http://btl-cromwell:9000/api/workflows/v1/query?label=alabel=b"%string
  /\ build_query_url "http://btl-cromwell:9000/api/workflows/v1/query?"
       [("label"%string, VList [SStr "a"; SStr "b"])] "=" <>
     "http://btl-cromwell:9000/api/workflows/v1/query?label=a&label=b"%string.
Proof. split; [reflexivity | discriminate]. Qed.

End QueryUrlClaims.

(** ** The constructor *)

Section ClientClaims.
Import PyStr Client.

(** C10. [Cromwell(host, port)] uses port 8000 when [host] is
    ['localhost'], whatever [port] is given, and the given port for every
    other host; the URL is [http://<host>:<port>/api/workflows/v1] with
    the port used. *)
Theorem C10_init_port_and_url (host : string) (port_arg : Z) :
  (host = "localhost"%string -> port (init host port_arg) = 8000)
  /\ (host <> "localhost"%string -> port (init host port_arg) = port_arg)
  /\ url (init host port_arg) =
       "http://" +:+ host +:+ ":" +:+ str_int (port (init host port_arg))
       +:+ "/api/workflows/v1".
Proof.
  unfold init. cbn [port url].
  destruct (String.eqb_spec host "localhost") as [Heq|Hne].
  - repeat split; [intros; contradiction].
  - repeat split; [intros; contradiction].
Qed.

Lemma C10_init_witness :
  port (init "localhost" 9000) = 8000
  /\ port (init "btl-cromwell" 9000) = 9000
  /\ url (init "localhost" 9000) = "http://localhost:8000/api/workflows/v1"%string.
Proof.
  split; [|split].
  - apply (proj1 (C10_init_port_and_url "localhost" 9000)). reflexivity.
  - apply (proj1 (proj2 (C10_init_port_and_url "btl-cromwell" 9000))). discriminate.
  - apply (proj2 (proj2 (C10_init_port_and_url "localhost" 9000))).
Defined.

End ClientClaims.

(** ** The query-URL builder: timestamps *)

Section DatetimeClaims.
Import PyStr PyDatetime QueryUrl.

Lemma quote_app s t : quote (s +:+ t) = quote s +:+ quote t.
Proof.
  induction s as [|c s IH]; [reflexivity|].
  rewrite sapp_cons. cbn [quote]. rewrite IH. symmetry. apply sapp_assoc.
Qed.

(** The text [quote] emits for a character other than the space holds no
    [%20], and what follows it is scanned from its start. *)
Lemma replace_quote_char c rest :
  not_space c = true ->
  replace_from "%20" "T" 0 (quote_char c +:+ rest) =
  quote_char c +:+ replace_from "%20" "T" 0 rest.
Proof.
  destruct c as [[] [] [] [] [] [] [] []]; intros H;
    vm_compute in H; try discriminate H; vm_compute; reflexivity.
Qed.

Lemma count_quote_char c rest :
  not_space c = true ->
  count_from "%20" 0 (quote_char c +:+ rest) = count_from "%20" 0 rest.
Proof.
  destruct c as [[] [] [] [] [] [] [] []]; intros H;
    vm_compute in H; try discriminate H; vm_compute; reflexivity.
Qed.

Lemma replace_quote_no_space s rest :
  all_chars not_space s = true ->
  replace_from "%20" "T" 0 (quote s +:+ rest) =
  quote s +:+ replace_from "%20" "T" 0 rest.
Proof.
  induction s as [|c s IH]; [reflexivity|].
  simpl all_chars. rewrite andb_true_iff. intros [Hc Hs].
  cbn [quote]. rewrite !sapp_assoc, replace_quote_char, IH by assumption.
  reflexivity.
Qed.

Lemma count_quote_no_space s rest :
  all_chars not_space s = true ->
  count_from "%20" 0 (quote s +:+ rest) = count_from "%20" 0 rest.
Proof.
  induction s as [|c s IH]; [reflexivity|].
  simpl all_chars. rewrite andb_true_iff. intros [Hc Hs].
  cbn [quote]. rewrite !sapp_assoc, count_quote_char, IH by assumption.
  reflexivity.
Qed.

Lemma digits_of_uint d : all_chars is_digit (NilEmpty.string_of_uint d) = true.
Proof. induction d; simpl; auto. Qed.

Lemma all_chars_concat p l :
  Forall (fun s => all_chars p s = true) l ->
  all_chars p (String.concat "" l) = true.
Proof.
  induction 1 as [|x l Hx Hl IH]; [reflexivity|].
  cbn [String.concat]. destruct l as [|y l]; [exact Hx|].
  rewrite !all_chars_app, Hx, IH. reflexivity.
Qed.

Lemma fmt_0d_digits width n : all_chars is_digit (fmt_0d width n) = true.
Proof.
  unfold fmt_0d. rewrite all_chars_app, andb_true_iff. split.
  - apply all_chars_concat. apply List.Forall_forall.
    intros s Hs. apply repeat_spec in Hs. subst s. reflexivity.
  - unfold NilZero.string_of_uint.
    destruct (N.to_uint n); try apply digits_of_uint. reflexivity.
Qed.

Lemma digit_not_space c : is_digit c = true -> not_space c = true.
Proof.
  destruct c as [[] [] [] [] [] [] [] []]; intros H;
    vm_compute in H; try discriminate H; reflexivity.
Qed.

Lemma digit_always_safe c : is_digit c = true -> always_safe c = true.
Proof.
  destruct c as [[] [] [] [] [] [] [] []]; intros H;
    vm_compute in H; try discriminate H; reflexivity.
Qed.

Lemma fmt_0d_no_space width n : all_chars not_space (fmt_0d width n) = true.
Proof.
  apply (all_chars_weaken is_digit); [apply digit_not_space | apply fmt_0d_digits].
Qed.

Lemma date_str_no_space d : all_chars not_space (date_str d) = true.
Proof.
  unfold date_str. rewrite !all_chars_app, !fmt_0d_no_space. reflexivity.
Qed.

Lemma offset_str_no_space o : all_chars not_space (offset_str o) = true.
Proof.
  destruct o as [m|]; [|reflexivity]. unfold offset_str.
  rewrite !all_chars_app, !fmt_0d_no_space. destruct (m <? 0); reflexivity.
Qed.

Lemma time_str_no_space d : all_chars not_space (time_str d) = true.
Proof.
  unfold time_str.
  rewrite !all_chars_app, !fmt_0d_no_space, offset_str_no_space.
  destruct (microsecond d =? 0)%N; [reflexivity|].
  rewrite all_chars_app, fmt_0d_no_space. reflexivity.
Qed.

(** The date has safe characters only, so quoting leaves it as it is. *)
Lemma quote_safe s : all_chars always_safe s = true -> quote s = s.
Proof.
  induction s as [|c s IH]; [reflexivity|].
  simpl all_chars. rewrite andb_true_iff. intros [Hc Hs].
  cbn [quote]. unfold quote_char. rewrite Hc, IH by assumption. reflexivity.
Qed.

Lemma quote_date_str d : quote (date_str d) = date_str d.
Proof.
  apply quote_safe. unfold date_str.
  rewrite !all_chars_app.
  rewrite !(all_chars_weaken is_digit always_safe _ digit_always_safe (fmt_0d_digits _ _)).
  reflexivity.
Qed.

(** The quoted text of a timestamp: the space between date and time is
    its only [%20]. *)
Lemma quote_str_datetime d :
  quote (str_datetime d) = quote (date_str d) +:+ "%20" +:+ quote (time_str d).
Proof. unfold str_datetime. rewrite !quote_app. reflexivity. Qed.

Lemma encode_datetime_shape d :
  encode_datetime d = quote (date_str d) +:+ "T" +:+ quote (time_str d) +:+ "Z".
Proof.
  unfold encode_datetime. cbv zeta. rewrite quote_str_datetime.
  unfold replace. rewrite !sapp_assoc.
  rewrite replace_quote_no_space by apply date_str_no_space.
  change (replace_from "%20" "T" 0 ("%20" +:+ quote (time_str d) +:+ "Z"))
    with ("T" +:+ replace_from "%20" "T" 0 (quote (time_str d) +:+ "Z")).
  rewrite replace_quote_no_space by apply time_str_no_space.
  reflexivity.
Qed.

Lemma count_encoded_space d : count "%20" (quote (str_datetime d) +:+ "Z") = 1%nat.
Proof.
  rewrite quote_str_datetime. unfold count. rewrite !sapp_assoc.
  rewrite count_quote_no_space by apply date_str_no_space.
  change (count_from "%20" 0 ("%20" +:+ quote (time_str d) +:+ "Z"))
    with (S (count_from "%20" 0 (quote (time_str d) +:+ "Z"))).
  rewrite count_quote_no_space by apply time_str_no_space.
  reflexivity.
Qed.

Lemma segment_datetime key sep d :
  segment sep (key, VDatetime d) = key +:+ sep +:+ encode_datetime d.
Proof. reflexivity. Qed.

(** C2. A timestamp value is rendered as [str] gives it, quoted, a ['Z']
    appended and [%20] replaced by ['T'], in that order. Wherever the item
    stands in the mapping, its segment of the URL is
    [key<sep><quoted date>T<quoted time>Z] (with [key=] for the default
    separator): the quoted text is the quoted date, one [%20] and the
    quoted time, that [%20] is the only one the replacement finds, and it
    is replaced by ['T']. *)
Theorem C2_datetime_segment (base_url : string) (pre post : list (string * value))
    (key sep : string) (d : datetime) :
  build_query_url base_url (pre ++ (key, VDatetime d) :: post) sep =
    rstrip base_url +:+
    join "&" (map (segment sep) pre
              ++ (key +:+ sep +:+ quote (date_str d) +:+ "T" +:+ quote (time_str d) +:+ "Z")
                 :: map (segment sep) post)
  /\ encode_datetime d = replace "%20" "T" (quote (str_datetime d) +:+ "Z")
  /\ quote (str_datetime d) = quote (date_str d) +:+ "%20" +:+ quote (time_str d)
  /\ count "%20" (quote (str_datetime d) +:+ "Z") = 1%nat
  /\ count "%20" (encode_datetime d) = 0%nat.
Proof.
  split; [|split; [|split; [|split]]].
  - rewrite build_query_url_segments, map_app. cbn [map].
    rewrite segment_datetime, encode_datetime_shape. reflexivity.
  - reflexivity.
  - apply quote_str_datetime.
  - apply count_encoded_space.
  - rewrite encode_datetime_shape. unfold count.
    rewrite count_quote_no_space by apply date_str_no_space.
    change (count_from "%20" 0 ("T" +:+ quote (time_str d) +:+ "Z"))
      with (count_from "%20" 0 (quote (time_str d) +:+ "Z")).
    rewrite count_quote_no_space by apply time_str_no_space.
    reflexivity.
Qed.

Example datetime_example :
  build_query_url "http://btl-cromwell:9000/api/workflows/v1/query?"
    [("start"%string, VDatetime (mk_datetime 2017 1 2 3 4 5 0 None));
     ("end"%string, VDatetime (mk_datetime 2017 11 30 23 59 59 250 (Some (-90))))] "=" =
  ("http://btl-cromwell:9000/api/workflows/v1/query?" +:+
   "start=2017-01-02T03%3A04%3A05Z&end=2017-11-30T23%3A59%3A59.000250-01%3A30Z")%string.
Proof. reflexivity. Qed.

End DatetimeClaims.

(** ** The selection of calls *)

Section SelectCalls.
Import PyStr PyJson Effects Client Cromwell.

Lemma result_bind_ok {A B} (a : A) (f : A -> result B) : (Ok a ≫= f) = f a.
Proof. reflexivity. Qed.

Lemma result_bind_inv {A B} (m : result A) (f : A -> result B) (b : B) :
  (m ≫= f) = Ok b -> exists a, m = Ok a /\ f a = Ok b.
Proof. destruct m as [a|e]; [|discriminate]. intros H. exists a. auto. Qed.

(** A call that passes the test of line 79 has a first attempt. *)
Lemma first_attempt_exists status c b :
  first_attempt_has_status status c = Ok b ->
  exists a s, getitem0 c = Ok a /\ getitem a "executionStatus" = Ok s
              /\ b = json_eq_str s status.
Proof.
  unfold first_attempt_has_status. intros H.
  apply result_bind_inv in H as [a [Ha H]].
  apply result_bind_inv in H as [s [Hs H]].
  exists a, s. repeat split; [assumption..|]. inversion H. reflexivity.
Qed.

(** Lines 79-80, one call at a time: a call is tested, the rest is
    selected, and the first attempt of a call that passed comes first. *)
Lemma filteredCalls_cons status c rest :
  filteredCalls status (c :: rest) =
  (b ← first_attempt_has_status status c;
   selected ← filteredCalls status rest;
   if b : bool then a ← getitem0 c; mret (a :: selected) else mret selected).
Proof.
  unfold filteredCalls. cbn [py_filter].
  destruct (first_attempt_has_status status c) as [b|e] eqn:Hc; [|reflexivity].
  apply first_attempt_exists in Hc as [a [s [Ha _]]].
  rewrite !result_bind_ok.
  destruct (py_filter (first_attempt_has_status status) rest) as [kept|e];
    [|reflexivity].
  rewrite !result_bind_ok. destruct b.
  - cbn [mapM]. rewrite Ha, !result_bind_ok.
    destruct (mapM getitem0 kept); reflexivity.
  - destruct (mapM getitem0 kept); reflexivity.
Qed.

(** A call whose first attempt has another status leaves the selection as
    it is without it, whatever its later attempts are. *)
Lemma filteredCalls_skip status pre c post s a :
  getitem0 c = Ok a ->
  getitem a "executionStatus" = Ok s ->
  json_eq_str s status = false ->
  filteredCalls status (pre ++ c :: post) = filteredCalls status (pre ++ post).
Proof.
  intros Ha Hs Hne. induction pre as [|x pre IH].
  - cbn [app]. rewrite filteredCalls_cons.
    unfold first_attempt_has_status. rewrite Ha, result_bind_ok, Hs, result_bind_ok.
    change (mret (json_eq_str s status)) with (Ok (json_eq_str s status)).
    rewrite result_bind_ok, Hne.
    destruct (filteredCalls status post); reflexivity.
  - cbn [app]. rewrite !filteredCalls_cons, IH. reflexivity.
Qed.

(** The attempts selected are the first attempts with the status. *)
Lemma filteredCalls_In status call_arr selected :
  filteredCalls status call_arr = Ok selected ->
  forall a, In a selected <->
    exists c s, In c call_arr /\ getitem0 c = Ok a
                /\ getitem a "executionStatus" = Ok s
                /\ json_eq_str s status = true.
Proof.
  revert selected. induction call_arr as [|c rest IH]; intros selected H a.
  - inversion H. split; [intros []|intros [c [s [[] _]]]].
  - rewrite filteredCalls_cons in H.
    apply result_bind_inv in H as [b [Hb H]].
    apply result_bind_inv in H as [sel [Hsel H]].
    apply first_attempt_exists in Hb as [a0 [s0 [Ha0 [Hs0 ->]]]].
    specialize (IH sel Hsel a).
    destruct (json_eq_str s0 status) eqn:Hm.
    + rewrite Ha0, result_bind_ok in H. inversion H; subst selected.
      split.
      * intros [<-|Hin].
        -- exists c, s0. repeat split; auto. left. reflexivity.
        -- apply IH in Hin as [c' [s' [Hc' Hrest]]].
           exists c', s'. split; [right; exact Hc' | exact Hrest].
      * intros [c' [s' [[<-|Hc'] [Hg [Hs' Hm']]]]].
        -- left. congruence.
        -- right. apply IH. exists c', s'. auto.
    + inversion H; subst selected. split.
      * intros Hin. apply IH in Hin as [c' [s' [Hc' Hrest]]].
        exists c', s'. split; [right; exact Hc' | exact Hrest].
      * intros [c' [s' [[<-|Hc'] [Hg [Hs' Hm']]]]].
        -- congruence.
        -- apply IH. exists c', s'. auto.
Qed.

(** C4. [getCalls] selects a call exactly when the ['executionStatus'] of
    the first record of its attempt list equals the filter: the attempts
    kept are the records [c[0]] with that status, the summaries are made
    from them alone, and a call whose first attempt has another status
    contributes nothing, whatever statuses its later attempts have. *)
Theorem C4_first_attempt_decides (env : environment) (status : string)
    (call_arr selected : list json) (full_logs : bool) (limit_n : Z) :
  filteredCalls status call_arr = Ok selected ->
  (forall a, In a selected <->
     exists c s, In c call_arr /\ getitem0 c = Ok a
                 /\ getitem a "executionStatus" = Ok s
                 /\ json_eq_str s status = true)
  /\ getCalls env status call_arr full_logs limit_n =
       mapM (parse_logs env full_logs) (slice_to selected limit_n)
  /\ (forall pre post a later s,
        call_arr = pre ++ JList (a :: later) :: post ->
        getitem a "executionStatus" = Ok s ->
        json_eq_str s status = false ->
        filteredCalls status (pre ++ post) = Ok selected
        /\ getCalls env status call_arr full_logs limit_n =
             getCalls env status (pre ++ post) full_logs limit_n).
Proof.
  intros Hsel. split; [|split].
  - apply filteredCalls_In. exact Hsel.
  - unfold getCalls. rewrite Hsel. reflexivity.
  - intros pre post a later s -> Hs Hne.
    assert (Hskip : filteredCalls status (pre ++ JList (a :: later) :: post) =
                    filteredCalls status (pre ++ post)).
    { apply (filteredCalls_skip status pre (JList (a :: later)) post s a);
        [reflexivity | exact Hs | exact Hne]. }
    split; [rewrite <- Hskip; exact Hsel|].
    unfold getCalls. rewrite Hskip. reflexivity.
Qed.

Lemma C4_first_attempt_witness :
  let a := Example.attempt "RetryableFailure" "/cromwell/a/stdout" "/cromwell/a/stderr" in
  filteredCalls "RetryableFailure" (dict_values Example.calls) = Ok [a]
  /\ getCalls (Example.env JNull) "RetryableFailure" (dict_values Example.calls) true 3 =
       mapM (parse_logs (Example.env JNull) true) (slice_to [a] 3).
Proof.
  split; [reflexivity|].
  apply (C4_first_attempt_decides (Example.env JNull) "RetryableFailure"
           (dict_values Example.calls) _ true 3).
  reflexivity.
Defined.

End SelectCalls.

(** ** The logs of the selected calls *)

Section ParseLogs.
Import PyStr PyJson Effects Client Cromwell.

Lemma io_bind_eq {A B} (m : io A) (f : A -> io B) w :
  (m ≫= f) w =
  match m w with
  | (Ok a, w') => f a w'
  | (Raise e, w') => (Raise e, w')
  end.
Proof. reflexivity. Qed.

Lemma mapM_io_cons {A B} (f : A -> io B) x l w :
  mapM f (x :: l) w =
  match f x w with
  | (Ok y, w1) =>
      match mapM f l w1 with
      | (Ok k, w2) => (Ok (y :: k), w2)
      | (Raise e, w2) => (Raise e, w2)
      end
  | (Raise e, w1) => (Raise e, w1)
  end.
Proof.
  cbn [mapM]. rewrite io_bind_eq. destruct (f x w) as [[y|e] w1]; [|reflexivity].
  rewrite io_bind_eq. destruct (mapM f l w1) as [[k|e] w2]; reflexivity.
Qed.

(** One stream: a path string is opened, and the text or the error of
    reading it is the value; no exception leaves the [try] block. *)
Lemma read_log_path env call key path w :
  getitem call key = Ok (JStr path) ->
  read_log env call key w = (Ok (logged env path), w ++ [EvOpen path]).
Proof.
  intros H. unfold read_log, try_except_IOError, logged.
  rewrite io_bind_eq. unfold lift at 1. rewrite H.
  rewrite io_bind_eq. unfold open.
  destruct (file_content env path) as [e|text] eqn:Hf; [reflexivity|].
  rewrite io_bind_eq. unfold read, lift. rewrite Hf. reflexivity.
Qed.

(** One stream, whatever the record holds: at most the path it names is
    opened. *)
Lemma read_log_events env call key w :
  exists out evs,
    read_log env call key w = (out, w ++ evs)
    /\ (evs = [] \/ exists path, getitem call key = Ok (JStr path) /\ evs = [EvOpen path]).
Proof.
  destruct (getitem call key) as [v|e] eqn:Hg.
  - destruct v as [| | |path| |];
      try (exists (Raise TypeError), []; split; [|left; reflexivity];
           unfold read_log, try_except_IOError; rewrite io_bind_eq;
           unfold lift at 1; rewrite Hg, io_bind_eq, app_nil_r; reflexivity).
    exists (Ok (logged env path)), [EvOpen path].
    split; [apply read_log_path; exact Hg|]. right. exists path. auto.
  - exists (Raise e), []. split; [|left; reflexivity].
    unfold read_log, try_except_IOError. rewrite io_bind_eq.
    unfold lift at 1. rewrite Hg, app_nil_r.
    destruct call as [| | | | |members]; try (inversion Hg; subst; reflexivity).
    unfold getitem in Hg. destruct (dict_get key members); inversion Hg. reflexivity.
Qed.

(** [parse_logs] on a record with two path strings, the logs wanted:
    both files are opened in turn and the summary is returned, whether
    the reads succeed or fail. *)
Lemma parse_logs_full env call out err w :
  has_paths call out err ->
  parse_logs env true call w =
  (Ok (full_summary env out err), w ++ [EvOpen out; EvOpen err]).
Proof.
  intros [Ho He]. unfold parse_logs.
  rewrite io_bind_eq. unfold lift at 1. rewrite Ho.
  rewrite io_bind_eq. unfold lift at 1. rewrite He.
  rewrite io_bind_eq, (read_log_path env call "stdout" out) by exact Ho.
  rewrite io_bind_eq, (read_log_path env call "stderr" err) by exact He.
  rewrite <- app_assoc. reflexivity.
Qed.

(** [parse_logs] on any record: at most two events, each the opening of
    one of its streams, and none when the logs are not wanted. *)
Lemma parse_logs_events env full_logs call w :
  exists out evs,
    parse_logs env full_logs call w = (out, w ++ evs)
    /\ (length evs <= 2)%nat
    /\ Forall (opens_stream call) evs
    /\ (full_logs = false -> evs = []).
Proof.
  unfold parse_logs. rewrite io_bind_eq. unfold lift at 1.
  destruct (getitem call "stdout") as [o|e] eqn:Ho;
    [|exists (Raise e), []; rewrite app_nil_r; repeat split; auto with arith].
  rewrite io_bind_eq. unfold lift at 1.
  destruct (getitem call "stderr") as [r|e] eqn:He;
    [|exists (Raise e), []; rewrite app_nil_r; repeat split; auto with arith].
  destruct full_logs.
  - rewrite io_bind_eq.
    destruct (read_log_events env call "stdout" w) as [o1 [ev1 [-> H1]]].
    assert (Hev1 : (length ev1 <= 1)%nat /\ Forall (opens_stream call) ev1).
    { destruct H1 as [->|[p [Hp ->]]]; split; auto.
      constructor; [|constructor]. exists p. auto. }
    destruct Hev1 as [Hl1 Hf1].
    destruct o1 as [l1|e1];
      [|exists (Raise e1), ev1; repeat split; auto with arith; discriminate].
    rewrite io_bind_eq.
    destruct (read_log_events env call "stderr" (w ++ ev1)) as [o2 [ev2 [-> H2]]].
    assert (Hev2 : (length ev2 <= 1)%nat /\ Forall (opens_stream call) ev2).
    { destruct H2 as [->|[p [Hp ->]]]; split; auto.
      constructor; [|constructor]. exists p. auto. }
    destruct Hev2 as [Hl2 Hf2].
    assert (Hlen : (length (ev1 ++ ev2) <= 2)%nat)
      by (rewrite length_app; lia).
    rewrite <- app_assoc.
    destruct o2 as [l2|e2]; eexists _, (ev1 ++ ev2);
      (split; [reflexivity|]); repeat split; auto using Forall_app_2; discriminate.
  - eexists _, []. rewrite app_nil_r. split; [reflexivity|].
    repeat split; auto with arith.
Qed.

(** The summaries of a list of records: two events a record at most, each
    the opening of a stream of one of the records. *)
Lemma mapM_parse_logs_events env full_logs l w :
  exists out evs,
    mapM (parse_logs env full_logs) l w = (out, w ++ evs)
    /\ (length evs <= 2 * length l)%nat
    /\ (forall jobs, out = Ok jobs -> length jobs = length l)
    /\ Forall (fun ev => exists a, In a l /\ opens_stream a ev) evs.
Proof.
  revert w. induction l as [|x l IH]; intros w.
  - exists (Ok []), []. rewrite app_nil_r. repeat split; auto.
    intros jobs [= <-]. reflexivity.
  - rewrite mapM_io_cons.
    destruct (parse_logs_events env full_logs x w) as [o1 [ev1 [-> [Hl1 [Hf1 _]]]]].
    assert (Hf1' : Forall (fun ev => exists a, In a (x :: l) /\ opens_stream a ev) ev1).
    { eapply List.Forall_impl; [|exact Hf1]. intros ev Hev. exists x. split; [left; reflexivity | exact Hev]. }
    destruct o1 as [y|e].
    + destruct (IH (w ++ ev1)) as [o2 [ev2 [-> [Hl2 [Hjobs Hf2]]]]].
      assert (Hf2' : Forall (fun ev => exists a, In a (x :: l) /\ opens_stream a ev) ev2).
      { eapply List.Forall_impl; [|exact Hf2]. intros ev [a [Ha Hev]]. exists a. split; [right; exact Ha | exact Hev]. }
      rewrite <- app_assoc.
      destruct o2 as [k|e]; eexists _, (ev1 ++ ev2); (split; [reflexivity|]);
        (split; [rewrite length_app; cbn [length]; lia|]);
        (split; [|apply Forall_app_2; assumption]).
      * intros jobs [= <-]. cbn [length]. rewrite (Hjobs k eq_refl). reflexivity.
      * discriminate.
    + exists (Raise e), ev1. split; [reflexivity|].
      split; [cbn [length]; lia|]. split; [discriminate | exact Hf1'].
Qed.

(** The summaries of records that all have path strings, the logs
    wanted: every record is summarised, whatever the reads give. *)
Lemma mapM_parse_logs_full env l w :
  Forall (fun a => exists out err, has_paths a out err) l ->
  exists jobs evs,
    mapM (parse_logs env true) l w = (Ok jobs, w ++ evs)
    /\ Forall2 (fun a job => exists out err,
                   has_paths a out err /\ job = full_summary env out err) l jobs.
Proof.
  intros Hl. revert w. induction Hl as [|x l [out [err Hx]] Hl IH]; intros w.
  - exists [], []. rewrite app_nil_r. split; [reflexivity | constructor].
  - rewrite mapM_io_cons, (parse_logs_full env x out err) by exact Hx.
    destruct (IH (w ++ [EvOpen out; EvOpen err])) as [jobs [evs [-> Hjobs]]].
    exists (full_summary env out err :: jobs), ([EvOpen out; EvOpen err] ++ evs).
    rewrite <- app_assoc. split; [reflexivity|].
    constructor; [exists out, err; auto | exact Hjobs].
Qed.

Lemma slice_to_nonneg {A} (l : list A) n : 0 <= n -> slice_to l n = firstn (Z.to_nat n) l.
Proof. intros H. unfold slice_to. destruct (Z.leb_spec 0 n); [reflexivity | lia]. Qed.

(** A negative limit counts from the end, as slices do. *)
Remark slice_to_negative : slice_to [1; 2; 3] (-1) = [1; 2].
Proof. reflexivity. Qed.

(** C5. With a limit that is not negative, [getCalls] returns at most
    [limit_n] summaries however many calls match, and reads logs for the
    first [limit_n] selected attempts only: the list is cut before
    [parse_logs] runs, so at most two files per kept attempt are opened,
    each of them a stream of one of those attempts. *)
Theorem C5_limit_bounds_summaries_and_reads (env : environment) (status : string)
    (call_arr : list json) (full_logs : bool) (limit_n : Z) (w : list event) :
  0 <= limit_n ->
  exists out evs,
    getCalls env status call_arr full_logs limit_n w = (out, w ++ evs)
    /\ (forall jobs, out = Ok jobs -> Z.of_nat (length jobs) <= limit_n)
    /\ Z.of_nat (length evs) <= 2 * limit_n
    /\ Forall (fun ev => exists selected a,
                 filteredCalls status call_arr = Ok selected
                 /\ In a (firstn (Z.to_nat limit_n) selected)
                 /\ opens_stream a ev) evs.
Proof.
  intros Hlim. unfold getCalls. rewrite io_bind_eq. unfold lift.
  destruct (filteredCalls status call_arr) as [selected|e] eqn:Hsel.
  - rewrite slice_to_nonneg by exact Hlim.
    destruct (mapM_parse_logs_events env full_logs (firstn (Z.to_nat limit_n) selected) w)
      as [out [evs [-> [Hlen [Hjobs Hev]]]]].
    pose proof (firstn_le_length (Z.to_nat limit_n) selected) as Hcut.
    exists out, evs. split; [reflexivity|]. split; [|split].
    + intros jobs Hout. rewrite (Hjobs jobs Hout). lia.
    + lia.
    + eapply List.Forall_impl; [|exact Hev].
      intros ev [a [Ha Hopen]]. exists selected, a. auto.
  - exists (Raise e), []. rewrite app_nil_r. split; [reflexivity|].
    split; [discriminate|]. split; [cbn [length]; lia | constructor].
Qed.

Example limit_example :
  getCalls (Example.env JNull) "Done"
    (dict_values Example.calls ++ dict_values Example.calls) true 1 [] =
  (Ok [mk_call_log
         (mk_log_entry (JStr "/cromwell/b/stdout")
            (Some (LogError (IOErr 2 "/cromwell/b/stdout"))))
         (mk_log_entry (JStr "/cromwell/b/stderr")
            (Some (LogError (IOErr 2 "/cromwell/b/stderr"))))],
   [EvOpen "/cromwell/b/stdout"; EvOpen "/cromwell/b/stderr"]).
Proof. reflexivity. Qed.

Lemma C5_limit_witness :
  exists out evs,
    getCalls (Example.env JNull) "Done"
      (dict_values Example.calls ++ dict_values Example.calls) true 1 [] = (out, [] ++ evs)
    /\ (forall jobs, out = Ok jobs -> Z.of_nat (length jobs) <= 1)
    /\ Z.of_nat (length evs) <= 2 * 1
    /\ Forall (fun ev => exists selected a,
                 filteredCalls "Done" (dict_values Example.calls ++ dict_values Example.calls)
                   = Ok selected
                 /\ In a (firstn (Z.to_nat 1) selected)
                 /\ opens_stream a ev) evs.
Proof.
  apply (C5_limit_bounds_summaries_and_reads (Example.env JNull) "Done"
           (dict_values Example.calls ++ dict_values Example.calls) true 1 []).
  lia.
Defined.

(** C6. With the logs wanted, a read that fails does not raise: for the
    attempts kept, whose ['stdout'] and ['stderr'] are path strings,
    [getCalls] returns a summary for every one of them, the ['log'] of a
    stream is the error itself where the file cannot be read and the text
    where it can, and the ['name'] beside it is the path as it was. *)
Theorem C6_read_failure_is_stored (env : environment) (status : string)
    (call_arr selected : list json) (limit_n : Z) (w : list event) :
  filteredCalls status call_arr = Ok selected ->
  Forall (fun a => exists out err, has_paths a out err) (slice_to selected limit_n) ->
  exists jobs evs,
    getCalls env status call_arr true limit_n w = (Ok jobs, w ++ evs)
    /\ Forall2 (fun a job => exists out err,
          has_paths a out err
          /\ name (stdout job) = JStr out /\ name (stderr job) = JStr err
          /\ log (stdout job) = Some (logged env out)
          /\ log (stderr job) = Some (logged env err)) (slice_to selected limit_n) jobs
    /\ (forall path e, file_content env path = inl e -> logged env path = LogError e)
    /\ (forall path text, file_content env path = inr text -> logged env path = LogText text).
Proof.
  intros Hsel Hpaths. unfold getCalls. rewrite io_bind_eq. unfold lift. rewrite Hsel.
  destruct (mapM_parse_logs_full env (slice_to selected limit_n) w Hpaths)
    as [jobs [evs [-> Hjobs]]].
  exists jobs, evs. split; [reflexivity|]. split; [|split].
  - eapply Forall2_impl; [exact Hjobs|].
    intros a job [out [err [Ha ->]]]. exists out, err. repeat split; apply Ha.
  - intros path e H. unfold logged. rewrite H. reflexivity.
  - intros path text H. unfold logged. rewrite H. reflexivity.
Qed.

Lemma C6_read_failure_witness :
  exists jobs evs,
    getCalls (Example.env JNull) "RetryableFailure" (dict_values Example.calls) true 3 []
      = (Ok jobs, [] ++ evs)
    /\ Forall2 (fun a job => exists out err,
          has_paths a out err
          /\ name (stdout job) = JStr out /\ name (stderr job) = JStr err
          /\ log (stdout job) = Some (logged (Example.env JNull) out)
          /\ log (stderr job) = Some (logged (Example.env JNull) err))
        (slice_to [Example.attempt "RetryableFailure" "/cromwell/a/stdout" "/cromwell/a/stderr"] 3)
        jobs
    /\ (forall path e, file_content (Example.env JNull) path = inl e ->
          logged (Example.env JNull) path = LogError e)
    /\ (forall path text, file_content (Example.env JNull) path = inr text ->
          logged (Example.env JNull) path = LogText text).
Proof.
  apply (C6_read_failure_is_stored (Example.env JNull) "RetryableFailure"
           (dict_values Example.calls) _ 3 []).
  - reflexivity.
  - repeat constructor.
    exists "/cromwell/a/stdout"%string, "/cromwell/a/stderr"%string. split; reflexivity.
Defined.

End ParseLogs.

(** ** The summary of a workflow *)

Section ExplainWorkflow.
Import PyStr PyJson Effects Client Cromwell.

Lemma json_eq_str_true v s : json_eq_str v s = true <-> v = JStr s.
Proof.
  destruct v; simpl; try (split; [discriminate | intros [=]]).
  rewrite String.eqb_eq. split; [intros ->; reflexivity | intros [= ->]; reflexivity].
Qed.

(** C7. When [query_metadata] gives [None], [explain_workflow] raises
    nothing: it prints ['Workflow not found.'], which is its signal, and
    returns three empty dictionaries. *)
Theorem C7_absent_metadata (env : environment) (self : cromwell) (workflow_id : string)
    (include_inputs : bool) (w w1 : list event) :
  query_metadata env self workflow_id w = (Ok JNull, w1) ->
  explain_workflow env self workflow_id include_inputs w =
  (Ok ([], [], []), w1 ++ [EvPrint "Workflow not found."]).
Proof.
  intros Hq. unfold explain_workflow. rewrite io_bind_eq, Hq. reflexivity.
Qed.

Lemma C7_absent_witness :
  explain_workflow (Example.env JNull) Example.client "7f3a" true [] =
  (Ok ([], [], []),
   [EvGet "http://localhost:8000/api/workflows/v1/7f3a/metadata"]
   ++ [EvPrint "Workflow not found."]).
Proof.
  apply (C7_absent_metadata (Example.env JNull) Example.client "7f3a" true []).
  reflexivity.
Defined.

(** The body of [explain_workflow] once the document is there and its
    three headline fields are read. *)
Lemma explain_workflow_present env self workflow_id include_inputs w w1 doc st i root :
  query_metadata env self workflow_id w = (Ok doc, w1) ->
  getitem doc "status" = Ok st ->
  getitem doc "id" = Ok i ->
  getitem doc "workflowRoot" = Ok root ->
  explain_workflow env self workflow_id include_inputs w =
  ('(explain_res, stdout_res) ←
     explain_jobs env doc st
       [("status"%string, RJson st); ("id"%string, RJson i);
        ("workflowRoot"%string, RJson root)] [];
   additional_res ←
     (if include_inputs then
        inputs ← lift (getitem doc "inputs");
        mret [("inputs"%string, RJson inputs)]
      else mret []);
   mret (explain_res, additional_res, stdout_res)) w1.
Proof.
  intros Hq Hst Hid Hroot. unfold explain_workflow. rewrite io_bind_eq, Hq.
  destruct doc; try discriminate Hst;
    rewrite io_bind_eq; unfold lift at 1; rewrite Hst;
    rewrite io_bind_eq; unfold lift at 1; rewrite Hid;
    rewrite io_bind_eq; unfold lift at 1; rewrite Hroot;
    reflexivity.
Qed.

(** C8. For a metadata document that is there, [explain_workflow] copies
    ['status'], ['id'] and ['workflowRoot'] into the first dictionary.
    With the status ['Failed'] the third dictionary gets ['failed_jobs'],
    which is [getCalls('RetryableFailure', calls.values(), full_logs=True)]
    with the default limit 3; with ['Running'] the first dictionary gets
    ['running_jobs'], which is [getCalls('Running', calls.values())]
    without logs; with any other status no job list is made. With
    [include_inputs] the second dictionary holds ['inputs'] as it is in
    the document, and is empty otherwise. *)
Theorem C8_present_metadata (env : environment) (self : cromwell) (workflow_id : string)
    (include_inputs : bool) (w w1 : list event) (doc st i root inputs : json) :
  query_metadata env self workflow_id w = (Ok doc, w1) ->
  getitem doc "status" = Ok st ->
  getitem doc "id" = Ok i ->
  getitem doc "workflowRoot" = Ok root ->
  (include_inputs = true -> getitem doc "inputs" = Ok inputs) ->
  let headline := [("status"%string, RJson st); ("id"%string, RJson i);
                   ("workflowRoot"%string, RJson root)] in
  let extra := if include_inputs then [("inputs"%string, RJson inputs)] else [] in
  (st = JStr "Failed" ->
   forall calls call_arr jobs w2,
     getitem doc "calls" = Ok calls ->
     values calls = Ok call_arr ->
     getCalls env "RetryableFailure" call_arr true 3 w1 = (Ok jobs, w2) ->
     explain_workflow env self workflow_id include_inputs w =
     (Ok (headline, extra, [("failed_jobs"%string, RJobs jobs)]), w2))
  /\ (st = JStr "Running" ->
      forall calls call_arr jobs w2,
        getitem doc "calls" = Ok calls ->
        values calls = Ok call_arr ->
        getCalls env "Running" call_arr false 3 w1 = (Ok jobs, w2) ->
        explain_workflow env self workflow_id include_inputs w =
        (Ok (headline ++ [("running_jobs"%string, RJobs jobs)], extra, []), w2))
  /\ (st <> JStr "Failed" -> st <> JStr "Running" ->
      explain_workflow env self workflow_id include_inputs w =
      (Ok (headline, extra, []), w1)).
Proof.
  intros Hq Hst Hid Hroot Hin headline extra.
  rewrite (explain_workflow_present env self workflow_id include_inputs w w1 doc st i root)
    by assumption.
  assert (Hextra : forall (er sr : dict res_value) w2,
    (additional_res ←
       (if include_inputs then
          inputs ← lift (getitem doc "inputs");
          mret [("inputs"%string, RJson inputs)]
        else mret []);
     mret (er, additional_res, sr)) w2 = (Ok (er, extra, sr), w2)).
  { intros er sr w2. subst extra. destruct include_inputs; [|reflexivity].
    rewrite io_bind_eq, io_bind_eq. unfold lift. rewrite (Hin eq_refl). reflexivity. }
  split; [|split].
  - intros -> calls call_arr jobs w2 Hcalls Hvals Hjobs.
    rewrite io_bind_eq. unfold explain_jobs. cbn [json_eq_str String.eqb Ascii.eqb Bool.eqb].
    rewrite io_bind_eq. unfold lift at 1. rewrite Hcalls.
    rewrite io_bind_eq. unfold lift at 1. rewrite Hvals.
    rewrite io_bind_eq, Hjobs. apply Hextra.
  - intros -> calls call_arr jobs w2 Hcalls Hvals Hjobs.
    rewrite io_bind_eq. unfold explain_jobs. cbn [json_eq_str String.eqb Ascii.eqb Bool.eqb].
    rewrite io_bind_eq. unfold lift at 1. rewrite Hcalls.
    rewrite io_bind_eq. unfold lift at 1. rewrite Hvals.
    rewrite io_bind_eq, Hjobs. apply Hextra.
  - intros Hf Hr. rewrite io_bind_eq. unfold explain_jobs.
    destruct (json_eq_str st "Failed") eqn:E1;
      [apply json_eq_str_true in E1; contradiction|].
    destruct (json_eq_str st "Running") eqn:E2;
      [apply json_eq_str_true in E2; contradiction|].
    apply Hextra.
Qed.

Lemma C8_present_witness :
  explain_workflow (Example.env (Example.metadata "Failed")) Example.client "7f3a" true [] =
  (Ok ([("status"%string, RJson (JStr "Failed")); ("id"%string, RJson (JStr "7f3a"));
        ("workflowRoot"%string, RJson (JStr "/cromwell/hello/7f3a"))],
       [("inputs"%string, RJson (JDict [("hello.name"%string, JStr "world")]))],
       [("failed_jobs"%string,
         RJobs [mk_call_log
                  (mk_log_entry (JStr "/cromwell/a/stdout") (Some (LogText "started")))
                  (mk_log_entry (JStr "/cromwell/a/stderr")
                     (Some (LogError (IOErr 2 "/cromwell/a/stderr"))))])]),
   [EvGet "http://localhost:8000/api/workflows/v1/7f3a/metadata";
    EvOpen "/cromwell/a/stdout"; EvOpen "/cromwell/a/stderr"])
  /\ explain_workflow (Example.env (Example.metadata "Running")) Example.client "7f3a" false [] =
     (Ok ([("status"%string, RJson (JStr "Running")); ("id"%string, RJson (JStr "7f3a"));
           ("workflowRoot"%string, RJson (JStr "/cromwell/hello/7f3a"))]
          ++ [("running_jobs"%string,
               RJobs [mk_call_log (mk_log_entry (JStr "/cromwell/c/stdout") None)
                                  (mk_log_entry (JStr "/cromwell/c/stderr") None)])],
          [], []),
      [EvGet "http://localhost:8000/api/workflows/v1/7f3a/metadata"])
  /\ explain_workflow (Example.env (Example.metadata "Succeeded")) Example.client "7f3a" false [] =
     (Ok ([("status"%string, RJson (JStr "Succeeded")); ("id"%string, RJson (JStr "7f3a"));
           ("workflowRoot"%string, RJson (JStr "/cromwell/hello/7f3a"))],
          [], []),
      [EvGet "http://localhost:8000/api/workflows/v1/7f3a/metadata"]).
Proof.
  split; [|split].
  - apply (proj1 (C8_present_metadata
             (Example.env (Example.metadata "Failed")) Example.client "7f3a" true []
             [EvGet "http://localhost:8000/api/workflows/v1/7f3a/metadata"]
             (Example.metadata "Failed") (JStr "Failed") (JStr "7f3a")
             (JStr "/cromwell/hello/7f3a") (JDict [("hello.name"%string, JStr "world")])
             eq_refl eq_refl eq_refl eq_refl (fun _ => eq_refl))
           eq_refl (JDict Example.calls) (dict_values Example.calls));
      reflexivity.
  - apply (proj1 (proj2 (C8_present_metadata
             (Example.env (Example.metadata "Running")) Example.client "7f3a" false []
             [EvGet "http://localhost:8000/api/workflows/v1/7f3a/metadata"]
             (Example.metadata "Running") (JStr "Running") (JStr "7f3a")
             (JStr "/cromwell/hello/7f3a") JNull
             eq_refl eq_refl eq_refl eq_refl (fun H => False_ind _ (Bool.diff_false_true H))))
           eq_refl (JDict Example.calls) (dict_values Example.calls));
      reflexivity.
  - apply (proj2 (proj2 (C8_present_metadata
             (Example.env (Example.metadata "Succeeded")) Example.client "7f3a" false []
             [EvGet "http://localhost:8000/api/workflows/v1/7f3a/metadata"]
             (Example.metadata "Succeeded") (JStr "Succeeded") (JStr "7f3a")
             (JStr "/cromwell/hello/7f3a") JNull
             eq_refl eq_refl eq_refl eq_refl (fun H => False_ind _ (Bool.diff_false_true H)))));
      discriminate.
Defined.

End ExplainWorkflow.

(** ** Dictionaries *)

Section DictFacts.
Import PyJson.

Lemma dict_get_set_other {V} k k' (v : V) d :
  k <> k' -> dict_get k (dict_set k' v d) = dict_get k d.
Proof.
  intros Hne. induction d as [|[a b] d IH]; simpl.
  - destruct (String.eqb_spec k k'); [contradiction | reflexivity].
  - destruct (String.eqb_spec k' a) as [->|Hk'a]; simpl.
    + destruct (String.eqb_spec k a); [contradiction | reflexivity].
    + destruct (String.eqb_spec k a); [reflexivity | exact IH].
Qed.

Lemma dict_set_fresh {V} k (v : V) d :
  dict_get k d = None -> dict_set k v d = d ++ [(k, v)].
Proof.
  induction d as [|[a b] d IH]; simpl; [reflexivity|].
  destruct (String.eqb_spec k a); [discriminate|].
  intros H. rewrite (IH H). reflexivity.
Qed.

Lemma dict_get_app {V} k (d1 d2 : dict V) :
  dict_get k (d1 ++ d2) =
  match dict_get k d1 with Some v => Some v | None => dict_get k d2 end.
Proof.
  induction d1 as [|[a b] d1 IH]; simpl; [reflexivity|].
  destruct (String.eqb k a); [reflexivity | exact IH].
Qed.

Lemma sapp_inj p a b : p +:+ a = p +:+ b -> a = b.
Proof.
  induction p as [|c p IH]; [auto|].
  rewrite !sapp_cons. intros [= H]. auto.
Qed.

(** Items with distinct keys, stored one after the other under keys that
    stay distinct, come out in their order. *)
Lemma fold_dict_set_distinct {V} (f : string -> string) (items : list (string * V)) acc :
  (forall a b, f a = f b -> a = b) ->
  List.NoDup (map fst items) ->
  (forall item, In item items -> dict_get (f (fst item)) acc = None) ->
  fold_left (fun d item => dict_set (f (fst item)) (snd item) d) items acc =
  acc ++ map (fun item => (f (fst item), snd item)) items.
Proof.
  intros Hinj. revert acc. induction items as [|x items IH]; intros acc Hnd Hfresh.
  - simpl. rewrite app_nil_r. reflexivity.
  - cbn [fold_left map]. inversion Hnd as [|k ks Hk Hks]; subst.
    rewrite dict_set_fresh by (apply Hfresh; left; reflexivity).
    rewrite IH; [rewrite <- app_assoc; reflexivity | exact Hks |].
    intros item Hin. rewrite dict_get_app, Hfresh by (right; exact Hin).
    simpl. destruct (String.eqb_spec (f (fst item)) (f (fst x))) as [E|]; [|reflexivity].
    exfalso. apply Hk. apply Hinj in E. rewrite <- E.
    apply in_map. exact Hin.
Qed.

End DictFacts.

(** ** The order of a dictionary *)

Section DictOrder.
Import PyJson Effects.

Lemma dict_get_none_keys {V} k (d : dict V) :
  dict_get k d = None <-> ~ In k (map fst d).
Proof.
  induction d as [|[a b] d IH]; simpl; [tauto|].
  destruct (String.eqb_spec k a) as [->|Hne].
  - split; [discriminate | intros H; exfalso; apply H; left; reflexivity].
  - rewrite IH. split; [intros H [E|Hin]; [apply Hne; symmetry; exact E | exact (H Hin)]
                       | intros H Hin; apply H; right; exact Hin].
Qed.

(** The item of [k] in [d], if there is one. *)
Lemma lookup_other {V} (d : dict V) k a :
  k <> a ->
  dict_get k (dict_item d a) = None.
Proof.
  intros Hne. unfold dict_item. destruct (dict_get a d); simpl; [|reflexivity].
  destruct (String.eqb_spec k a); [contradiction | reflexivity].
Qed.

Lemma dict_get_listed_out {V} (d : dict V) k ks :
  ~ In k ks ->
  dict_get k (flat_map (dict_item d) ks) = None.
Proof.
  induction ks as [|a ks IH]; intros Hout; [reflexivity|].
  cbn [flat_map]. rewrite dict_get_app, lookup_other.
  - apply IH. intros Hin. apply Hout. right. exact Hin.
  - intros ->. apply Hout. left. reflexivity.
Qed.

Lemma dict_get_listed_in {V} (d : dict V) k ks :
  In k ks ->
  dict_get k (flat_map (dict_item d) ks) = dict_get k d.
Proof.
  induction ks as [|a ks IH]; intros Hin; [destruct Hin|].
  cbn [flat_map]. rewrite dict_get_app.
  destruct (string_dec k a) as [->|Hne].
  - unfold dict_item at 1. destruct (dict_get a d) as [v|] eqn:Ha.
    + simpl. rewrite String.eqb_refl. reflexivity.
    + simpl. destruct (in_dec string_dec a ks) as [Hks|Hks].
      * exact (IH Hks).
      * apply dict_get_listed_out. exact Hks.
  - rewrite lookup_other by exact Hne. apply IH.
    destruct Hin as [E|Hin]; [exfalso; apply Hne; symmetry; exact E | exact Hin].
Qed.

(** Iterating a dictionary gives every key the value it has. *)
Lemma dict_get_items {V} env (d : dict V) k :
  dict_get k (dict_items env d) = dict_get k d.
Proof.
  unfold dict_items. destruct (in_dec string_dec k (map fst d)) as [Hin|Hout].
  - apply dict_get_listed_in.
    eapply Permutation_in; [apply Permutation_sym, key_order_permutes | exact Hin].
  - rewrite dict_get_listed_out.
    + symmetry. apply dict_get_none_keys. exact Hout.
    + intros Hin. apply Hout.
      eapply Permutation_in; [apply key_order_permutes | exact Hin].
Qed.

Lemma listed_keys {V} (d : dict V) ks :
  (forall k, In k ks -> In k (map fst d)) ->
  map fst (flat_map (dict_item d) ks) = ks.
Proof.
  induction ks as [|a ks IH]; intros Hin; [reflexivity|].
  cbn [flat_map]. rewrite map_app, IH by (intros k Hk; apply Hin; right; exact Hk).
  unfold dict_item. destruct (dict_get a d) as [v|] eqn:Ha; [reflexivity|].
  exfalso. apply dict_get_none_keys in Ha. apply Ha, Hin. left. reflexivity.
Qed.

(** The keys come in the interpreter's order. *)
Lemma dict_items_keys {V} env (d : dict V) :
  map fst (dict_items env d) = key_order env (map fst d).
Proof.
  unfold dict_items. apply listed_keys. intros k Hk.
  eapply Permutation_in; [apply key_order_permutes | exact Hk].
Qed.

Lemma dict_item_cons_other {V} (d : dict V) k v ks :
  ~ In k ks ->
  flat_map (dict_item ((k, v) :: d)) ks = flat_map (dict_item d) ks.
Proof.
  induction ks as [|a ks IH]; intros Hks; [reflexivity|].
  cbn [flat_map]. rewrite IH by (intros H; apply Hks; right; exact H).
  f_equal. unfold dict_item. cbn [dict_get].
  destruct (String.eqb_spec a k) as [->|_]; [|reflexivity].
  exfalso. apply Hks. left. reflexivity.
Qed.

Lemma listed_in_own_order {V} (d : dict V) :
  List.NoDup (map fst d) -> flat_map (dict_item d) (map fst d) = d.
Proof.
  induction d as [|[k v] d IH]; intros Hnd; [reflexivity|].
  inversion Hnd as [|x xs Hk Hd]; subst.
  cbn [map fst flat_map]. unfold dict_item at 1. cbn [dict_get].
  rewrite String.eqb_refl. cbn [app].
  rewrite dict_item_cons_other by exact Hk. rewrite (IH Hd). reflexivity.
Qed.

(** The items of a dictionary are its items, in some order. *)
Lemma dict_items_permutes {V} env (d : dict V) :
  List.NoDup (map fst d) -> Permutation (dict_items env d) d.
Proof.
  intros Hnd. rewrite <- (listed_in_own_order d Hnd) at 2.
  unfold dict_items. apply Permutation_flat_map. apply key_order_permutes.
Qed.

End DictOrder.

(** ** The submission of a workflow *)

Section Submission.
Import PyStr PyJson Effects Client Cromwell.

Lemma dict_get_set {V} k (v : V) d : dict_get k (dict_set k v d) = Some v.
Proof.
  induction d as [|[k' v'] d IH]; simpl.
  - rewrite String.eqb_refl. reflexivity.
  - destruct (String.eqb k k') eqn:E; simpl; rewrite ?String.eqb_refl, ?E; auto.
Qed.

(** The serialisation of an object with a member begins with a brace and
    the quote of its first key. *)
Lemma dumps_dict_cons k v rest :
  exists tail, dumps (JDict ((k, v) :: rest)) =
               String "{" (String (Ascii.ascii_of_N 34) tail).
Proof. destruct rest; eexists; reflexivity. Qed.

(** The object with the user set, as it is iterated: the user is there,
    every other key has the value it had, and the keys are those of the
    object with the user set, each once. *)
Lemma user_set_items env (members : dict json) :
  let members' := dict_items env (dict_set "user" (JStr (getuser env)) members) in
  dict_get "user" members' = Some (JStr (getuser env))
  /\ (forall k, k <> "user"%string -> dict_get k members' = dict_get k members)
  /\ Permutation (map fst members')
                 (map fst (dict_set "user" (JStr (getuser env)) members)).
Proof.
  cbv zeta. split; [|split].
  - rewrite dict_get_items. apply dict_get_set.
  - intros k Hk. rewrite dict_get_items. apply dict_get_set_other. exact Hk.
  - rewrite dict_items_keys. apply key_order_permutes.
Qed.

(** The arguments read from a file that holds a JSON object: the object
    with the user set, serialised. *)
Lemma j_args_file env json_file text members w :
  startswith json_file "{" = false ->
  file_content env json_file = inr text ->
  json_loads env text = Ok (JDict members) ->
  j_args env json_file w =
  (Ok (dumps (JDict (dict_items env (dict_set "user" (JStr (getuser env)) members)))),
   w ++ [EvOpen json_file]).
Proof.
  intros Hs Hf Hl. unfold j_args. rewrite Hs. cbn [negb].
  rewrite io_bind_eq. unfold open. rewrite Hf.
  rewrite io_bind_eq. unfold read, lift at 1. rewrite Hf.
  rewrite io_bind_eq. unfold lift at 1. rewrite Hl. reflexivity.
Qed.

(** Inline text is the arguments as it is. *)
Lemma j_args_inline env json_file w :
  startswith json_file "{" = true ->
  j_args env json_file w = (Ok json_file, w).
Proof. intros Hs. unfold j_args. rewrite Hs. reflexivity. Qed.

(** Runs the statements that remain once every file is open, up to the
    POST request. *)
Ltac post_form :=
  cbv [mbind io_bind mret io_ret emit lift form_events];
  rewrite <- ?app_assoc; cbn [app]; reflexivity.

(** Once the arguments are there and the files of the form can be opened,
    the form is posted, and its [workflowInputs] part is the arguments. *)
Lemma jstart_workflow_posts env self wdl_file json_file dependencies wdl_string
    disable_caching w args w1 :
  j_args env json_file w = (Ok args, w1) ->
  sources_readable env wdl_file dependencies wdl_string = true ->
  exists files,
    jstart_workflow env self wdl_file json_file dependencies wdl_string disable_caching w =
    (http_post env (url self) files,
     w1 ++ form_events wdl_file dependencies wdl_string disable_caching
        ++ [EvPost (url self) files])
    /\ inputs_payload files = Some args.
Proof.
  intros Hargs Hsrc. unfold sources_readable in Hsrc.
  apply andb_true_iff in Hsrc as [Hwdl Hdeps].
  unfold jstart_workflow. rewrite io_bind_eq, Hargs.
  assert (Hopen : forall path w', readable env path = true ->
            open env (JStr path) w' = (Ok path, w' ++ [EvOpen path])).
  { intros path w' Hr. unfold open, readable in *.
    destruct (file_content env path); [discriminate | reflexivity]. }
  destruct wdl_string; cbn [negb orb] in *.
  - rewrite io_bind_eq. cbn [mret io_ret].
    destruct dependencies as [[|c rest]|].
    + destruct disable_caching; eexists; (split; [post_form | reflexivity]).
    + rewrite io_bind_eq, io_bind_eq, (Hopen _ _ Hdeps).
      destruct disable_caching; eexists; (split; [post_form | reflexivity]).
    + destruct disable_caching; eexists; (split; [post_form | reflexivity]).
  - rewrite io_bind_eq, io_bind_eq, (Hopen _ _ Hwdl). cbn [mret io_ret].
    destruct dependencies as [[|c rest]|].
    + destruct disable_caching; eexists; (split; [post_form | reflexivity]).
    + rewrite io_bind_eq, io_bind_eq, (Hopen _ _ Hdeps).
      destruct disable_caching; eexists; (split; [post_form | reflexivity]).
    + destruct disable_caching; eexists; (split; [post_form | reflexivity]).
Qed.

(** C9, as the code has it. When the JSON inputs are a file path (the
    argument does not begin with a brace) and the file holds a JSON
    object, the [workflowInputs] part of the form posted is that object
    serialised with its ['user'] member set to the user [getpass.getuser]
    reports: the object written is the one read with the user set, its
    members in the order the interpreter iterates them, so ['user'] is
    that user, every other member has the value of the file, and the
    keys are those of the file and ['user']. When the inputs are inline
    text (beginning with a brace), the part is the text as it was given:
    nothing is injected. *)
Theorem C9_user_injected_from_file_only (env : environment) (self : cromwell)
    (wdl_file json_file : string) (dependencies : option string)
    (wdl_string disable_caching : bool) (w : list event) :
  sources_readable env wdl_file dependencies wdl_string = true ->
  (forall text members,
     startswith json_file "{" = false ->
     file_content env json_file = inr text ->
     json_loads env text = Ok (JDict members) ->
     exists files members',
       jstart_workflow env self wdl_file json_file dependencies wdl_string
         disable_caching w =
       (http_post env (url self) files,
        (w ++ [EvOpen json_file])
        ++ form_events wdl_file dependencies wdl_string disable_caching
        ++ [EvPost (url self) files])
       /\ inputs_payload files = Some (dumps (JDict members'))
       /\ members' = dict_items env (dict_set "user" (JStr (getuser env)) members)
       /\ dict_get "user" members' = Some (JStr (getuser env))
       /\ (forall k, k <> "user"%string -> dict_get k members' = dict_get k members)
       /\ Permutation (map fst members')
                      (map fst (dict_set "user" (JStr (getuser env)) members))
       /\ has_user (getuser env) (dumps (JDict members')))
  /\ (startswith json_file "{" = true ->
      exists files,
        jstart_workflow env self wdl_file json_file dependencies wdl_string
          disable_caching w =
        (http_post env (url self) files,
         w ++ form_events wdl_file dependencies wdl_string disable_caching
           ++ [EvPost (url self) files])
        /\ inputs_payload files = Some json_file).
Proof.
  intros Hsrc. split.
  - intros text members Hs Hf Hl.
    destruct (jstart_workflow_posts env self wdl_file json_file dependencies wdl_string
                disable_caching w _ _ (j_args_file env json_file text members w Hs Hf Hl) Hsrc)
      as [files [Hrun Hpay]].
    destruct (user_set_items env members) as [Huser [Hrest Hkeys]].
    exists files, (dict_items env (dict_set "user" (JStr (getuser env)) members)).
    split; [exact Hrun|]. split; [exact Hpay|]. split; [reflexivity|].
    split; [exact Huser|]. split; [exact Hrest|]. split; [exact Hkeys|].
    eexists. split; [exact Huser | reflexivity].
  - intros Hs.
    exact (jstart_workflow_posts env self wdl_file json_file dependencies wdl_string
             disable_caching w _ _ (j_args_inline env json_file w Hs) Hsrc).
Qed.

Lemma C9_file_path_witness :
  (exists files members',
     jstart_workflow (Example.env JNull) Example.client "hello.wdl" "inputs.json"
       None false true [] =
     (http_post (Example.env JNull) (url Example.client) files,
      ([] ++ [EvOpen "inputs.json"])
      ++ form_events "hello.wdl" None false true
      ++ [EvPost (url Example.client) files])
     /\ inputs_payload files = Some (dumps (JDict members'))
     /\ members' = dict_items (Example.env JNull) (dict_set "user" (JStr "amr") [])
     /\ dict_get "user" members' = Some (JStr "amr")
     /\ (forall k, k <> "user"%string -> dict_get k members' = dict_get k [])
     /\ Permutation (map fst members') (map fst (dict_set "user" (JStr "amr") []))
     /\ has_user "amr" (dumps (JDict members')))
  /\ (exists files,
        jstart_workflow (Example.env JNull) Example.client "workflow hello {}" "{}"
          None true false [] =
        (http_post (Example.env JNull) (url Example.client) files,
         [] ++ form_events "workflow hello {}" None true false
            ++ [EvPost (url Example.client) files])
        /\ inputs_payload files = Some "{}"%string).
Proof.
  split.
  - apply (proj1 (C9_user_injected_from_file_only (Example.env JNull) Example.client
                    "hello.wdl" "inputs.json" None false true [] eq_refl)
             "{}"%string []); reflexivity.
  - apply (proj2 (C9_user_injected_from_file_only (Example.env JNull) Example.client
                    "workflow hello {}" "{}" None true false [] eq_refl)).
    reflexivity.
Defined.

(** C9, as it is stated, fails on inline text: the inputs ['{}'] of a
    submission by user [amr] are posted as they are, and ['{}'] is not an
    object with a ['user'] member. *)
Lemma C9_inline_text_has_no_user :
  jstart_workflow (Example.env JNull) Example.client "workflow hello {}" "{}"
    None true false [] =
  (Ok JNull,
   [EvPost "http://localhost:8000/api/workflows/v1"
      [("wdlSource"%string,
        ("workflow.wdl"%string, Text "workflow hello {}", "application/text-plain"%string));
       ("workflowInputs"%string,
        ("report.csv"%string, Text "{}", "application/json"%string))]])
  /\ ~ has_user (getuser (Example.env JNull)) "{}".
Proof.
  split; [reflexivity|].
  intros [members [Hget Hdump]].
  destruct members as [|[k v] rest]; [discriminate Hget|].
  destruct (dumps_dict_cons k v rest) as [tail Htail].
  rewrite Htail in Hdump. discriminate Hdump.
Qed.

End Submission.

(** * Further properties *)

(** ** The query-URL builder: the base and the shape of the values *)

Section QueryUrlMore.
Import PyStr PyDatetime QueryUrl.

Lemma rstrip_whitespace ws : all_chars is_whitespace ws = true -> rstrip ws = "".
Proof.
  induction ws as [|c ws IH]; [reflexivity|].
  simpl. rewrite andb_true_iff. intros [Hc Hws]. rewrite (IH Hws), Hc. reflexivity.
Qed.

Lemma rstrip_app_whitespace s ws :
  all_chars is_whitespace ws = true -> rstrip (s +:+ ws) = rstrip s.
Proof.
  intros Hws. induction s as [|c s IH].
  - apply rstrip_whitespace. exact Hws.
  - rewrite sapp_cons. simpl. rewrite IH. reflexivity.
Qed.

(** A text that [rstrip] leaves as it is and that is not empty protects
    what stands before it. *)
Lemma rstrip_app_stable s t :
  rstrip t = t -> t <> ""%string -> rstrip (s +:+ t) = s +:+ t.
Proof.
  intros Ht Hne. induction s as [|c s IH]; [exact Ht|].
  rewrite sapp_cons. simpl. rewrite IH.
  destruct (s +:+ t) eqn:E; [|reflexivity].
  destruct s; [|discriminate E]. contradiction.
Qed.

(** X1. Whitespace at the end of [base_url] does not reach the URL:
    two bases that differ by trailing whitespace give the same URL. *)
Theorem build_query_url_trailing_whitespace (base_url ws : string)
    (url_dict : list (string * value)) (sep : string) :
  all_chars is_whitespace ws = true ->
  build_query_url (base_url +:+ ws) url_dict sep = build_query_url base_url url_dict sep.
Proof.
  intros Hws. unfold build_query_url. rewrite rstrip_app_whitespace by exact Hws.
  reflexivity.
Qed.

Lemma build_query_url_trailing_whitespace_witness :
  build_query_url ("http://h/query?" +:+ "  ") [("a"%string, VScalar (SInt 1))] "=" =
  build_query_url "http://h/query?" [("a"%string, VScalar (SInt 1))] "=".
Proof.
  apply (build_query_url_trailing_whitespace "http://h/query?" "  "). reflexivity.
Defined.

Lemma join_app sep l1 l2 :
  l1 <> [] -> l2 <> [] -> join sep (l1 ++ l2) = join sep l1 +:+ sep +:+ join sep l2.
Proof.
  intros H1 H2. destruct l2 as [|x r]; [contradiction|].
  rewrite join_app_cons, (join_cons sep x r).
  destruct l1; [contradiction|]. rewrite !sapp_assoc. reflexivity.
Qed.

(** X2. A URL can be built in two steps: the URL of a first mapping,
    followed by ['&'], is a base for a second mapping, and the result is
    the URL of the two mappings one after the other. *)
Theorem build_query_url_in_two_steps (base_url : string)
    (d1 d2 : list (string * value)) (sep : string) :
  d1 <> [] -> d2 <> [] ->
  build_query_url (build_query_url base_url d1 sep +:+ "&") d2 sep =
  build_query_url base_url (d1 ++ d2) sep.
Proof.
  intros H1 H2. rewrite !build_query_url_segments, map_app.
  rewrite join_app by (destruct d1, d2; try contradiction; discriminate).
  rewrite rstrip_app_stable by (reflexivity || discriminate).
  rewrite !sapp_assoc. reflexivity.
Qed.

Lemma build_query_url_in_two_steps_witness :
  build_query_url
    (build_query_url "http://h/query? " [("a"%string, VScalar (SInt 1))] "=" +:+ "&")
    [("b"%string, VList [SStr "x"])] "=" =
  build_query_url "http://h/query? "
    ([("a"%string, VScalar (SInt 1))] ++ [("b"%string, VList [SStr "x"])]) "=".
Proof.
  apply (build_query_url_in_two_steps "http://h/query? "); discriminate.
Defined.

(** X3. A list value without elements contributes no text, but the ['&']
    of its item is still written: the URL then has an ['&'] with nothing
    before it, after it, or between it and the next one. *)
Theorem build_query_url_empty_list (base_url : string) (pre post : list (string * value))
    (key sep : string) :
  build_query_url base_url (pre ++ (key, VList []) :: post) sep =
    rstrip base_url +:+
    (match pre with [] => "" | _ => join "&" (map (segment sep) pre) +:+ "&" end)
    +:+ (match post with [] => "" | _ => "&" +:+ join "&" (map (segment sep) post) end)
  /\ build_query_url base_url [(key, VList []); (key, VList [])] sep =
     rstrip base_url +:+ "&".
Proof.
  split.
  - rewrite build_query_url_segments, map_app. cbn [map].
    rewrite join_app_cons.
    destruct pre, post; reflexivity.
  - reflexivity.
Qed.

(** X4. A list of one element is written as the scalar is. *)
Theorem build_query_url_singleton_list (base_url : string)
    (pre post : list (string * value)) (key sep : string) (x : scalar) :
  build_query_url base_url (pre ++ (key, VList [x]) :: post) sep =
  build_query_url base_url (pre ++ (key, VScalar x) :: post) sep.
Proof. rewrite !build_query_url_segments, !map_app. reflexivity. Qed.

Lemma quote_char_url_safe c : all_chars url_safe (quote_char c) = true.
Proof. destruct c as [[] [] [] [] [] [] [] []]; vm_compute; reflexivity. Qed.

Lemma quote_url_safe s : all_chars url_safe (quote s) = true.
Proof.
  induction s as [|c s IH]; [reflexivity|].
  cbn [quote]. rewrite all_chars_app, quote_char_url_safe, IH. reflexivity.
Qed.

(** X5. The text written for a timestamp holds letters, digits, [_.-/]
    and [%] only, whatever the timestamp: it brings no ['&'], no ['='],
    no ['?'] and no space into the URL. *)
Theorem encode_datetime_url_safe (d : datetime) :
  all_chars url_safe (encode_datetime d) = true
  /\ url_safe "&" = false /\ url_safe "=" = false
  /\ url_safe "?" = false /\ url_safe " " = false.
Proof.
  split; [|repeat split].
  rewrite encode_datetime_shape, !all_chars_app, !quote_url_safe. reflexivity.
Qed.

End QueryUrlMore.

(** ** The other requests *)

Section RequestsMore.
Import PyStr PyJson Effects Client QueryUrl Cromwell Requests.

Lemma get_request env self rtype workflow_id w :
  workflow_id <> ""%string ->
  get env self rtype workflow_id w =
  (http_get env (url self +:+ "/" +:+ workflow_id +:+ "/" +:+ rtype),
   w ++ [EvGet (url self +:+ "/" +:+ workflow_id +:+ "/" +:+ rtype)]).
Proof.
  intros Hne. unfold get.
  destruct (String.eqb_spec workflow_id ""); [contradiction|]. reflexivity.
Qed.

(** X6. Every request about one workflow is a single request to
    [<url>/<workflow id>/<what is asked>] (a GET for status, metadata,
    logs and outputs, a POST without a form to abort), and what the
    service answers is returned as it is. Without a workflow id the id is
    left out of the URL, as [query_backend] wants it: asking for a status
    then reaches [<url>/status]. *)
Theorem one_request_per_operation (env : environment) (self : cromwell)
    (workflow_id : string) (w : list event) :
  workflow_id <> ""%string ->
  let at_ := fun rtype : string => url self +:+ "/" +:+ workflow_id +:+ "/" +:+ rtype in
  query_status env self workflow_id w =
    (http_get env (at_ "status"), w ++ [EvGet (at_ "status")])
  /\ query_metadata env self workflow_id w =
       (http_get env (at_ "metadata"), w ++ [EvGet (at_ "metadata")])
  /\ query_logs env self workflow_id w =
       (http_get env (at_ "logs"), w ++ [EvGet (at_ "logs")])
  /\ query_outputs env self workflow_id w =
       (http_get env (at_ "outputs"), w ++ [EvGet (at_ "outputs")])
  /\ stop_workflow env self workflow_id w =
       (http_post env (at_ "abort") [], w ++ [EvPost (at_ "abort") []])
  /\ query_backend env self w =
       (http_get env (url self +:+ "/backends"), w ++ [EvGet (url self +:+ "/backends")])
  /\ query_status env self "" w =
       (http_get env (url self +:+ "/status"), w ++ [EvGet (url self +:+ "/status")]).
Proof.
  intros Hne at_. subst at_.
  repeat split; try (apply get_request; exact Hne).
  unfold stop_workflow, post.
  destruct (String.eqb_spec workflow_id ""); [contradiction|]. reflexivity.
Qed.

Lemma one_request_per_operation_witness :
  query_status (Example.env JNull) Example.client "7f3a" [] =
  (Ok JNull, [] ++ [EvGet (url Example.client +:+ "/" +:+ "7f3a" +:+ "/" +:+ "status")]).
Proof.
  apply (one_request_per_operation (Example.env JNull) Example.client "7f3a" []).
  discriminate.
Defined.

Lemma query_base_not_trimmed s : rstrip (s +:+ "/query?") = s +:+ "/query?".
Proof. apply rstrip_app_stable; [reflexivity | discriminate]. Qed.

(** X7. [query] makes one GET request, to the URL of the client followed
    by [/query?] and the query string: the base it hands to
    [build_query_url] ends in ['?'], so nothing of it is trimmed. For a
    mapping of scalars the URL is [<url>/query?key1=val1&key2=val2...]. *)
Theorem query_request (env : environment) (self : cromwell)
    (items : list (string * scalar)) (w : list event) :
  let query_url := url self +:+ "/query?" +:+ spec_query_string items in
  query env self (map scalar_item items) w =
  (http_get env query_url, w ++ [EvGet query_url]).
Proof.
  intros query_url. subst query_url. unfold query.
  rewrite build_query_url_segments, query_base_not_trimmed.
  unfold spec_query_string. rewrite map_map, sapp_assoc. reflexivity.
Qed.

Lemma NoDup_map_prefix p (ks : list string) :
  List.NoDup ks -> List.NoDup (map (fun k => p +:+ k) ks).
Proof.
  induction 1 as [|k ks Hk Hks IH]; cbn [map]; constructor; [|exact IH].
  intros Hin. apply in_map_iff in Hin as [k' [E Hk']].
  apply sapp_inj in E. subst k'. exact (Hk Hk').
Qed.

(** X8. [query_labels] makes one GET request, to
    [<url>/query?label=k1:v1&label=k2:v2...]: every label of the mapping
    (whose keys are distinct, as those of a dictionary are) is written
    once, as [label=<key>:<value>], and the labels come in the order in
    which the interpreter iterates the dictionary the method has filled
    with them, which need not be the order of the mapping. *)
Theorem query_labels_request (env : environment) (self : cromwell)
    (labels : list (string * scalar)) (w : list event) :
  List.NoDup (map fst labels) ->
  exists ordered,
    Permutation ordered labels
    /\ map (fun item => "label=" +:+ fst item) ordered =
       key_order env (map (fun item => "label=" +:+ fst item) labels)
    /\ query_labels env self (map scalar_item labels) w =
       (http_get env (url self +:+ "/query?" +:+ labels_query_string ordered),
        w ++ [EvGet (url self +:+ "/query?" +:+ labels_query_string ordered)]).
Proof.
  intros Hnd. unfold query_labels, label_dict.
  rewrite (fold_dict_set_distinct (fun k => "label=" +:+ k));
    [| intros a b; apply sapp_inj
     | rewrite map_map; exact Hnd
     | reflexivity].
  cbn [app]. rewrite map_map.
  set (stored := fun item : string * scalar =>
                   ("label=" +:+ fst item, VScalar (snd item))).
  change (map (fun x : string * scalar =>
                 ("label=" +:+ fst (scalar_item x), snd (scalar_item x))) labels)
    with (map stored labels).
  assert (Hkeys : map fst (map stored labels) =
                  map (fun item => "label=" +:+ fst item) labels)
    by (rewrite map_map; reflexivity).
  assert (Hperm : Permutation (dict_items env (map stored labels)) (map stored labels)).
  { apply dict_items_permutes. rewrite Hkeys, <- (map_map fst).
    apply NoDup_map_prefix. exact Hnd. }
  apply Permutation_map_inv in Hperm as [ordered [Heq Hperm]].
  exists ordered. split; [apply Permutation_sym; exact Hperm|]. split.
  - rewrite <- Hkeys, <- dict_items_keys, Heq, map_map. reflexivity.
  - rewrite Heq, build_query_url_segments, query_base_not_trimmed.
    unfold labels_query_string. rewrite !map_map, sapp_assoc. reflexivity.
Qed.

Lemma query_labels_request_witness :
  exists ordered,
    Permutation ordered [("project"%string, SStr "vesper"); ("run"%string, SInt 7)]
    /\ map (fun item => "label=" +:+ fst item) ordered =
       key_order (ExampleRun.backwards JNull)
         (map (fun item => "label=" +:+ fst item)
              [("project"%string, SStr "vesper"); ("run"%string, SInt 7)])
    /\ query_labels (ExampleRun.backwards JNull) Example.client
         (map scalar_item [("project"%string, SStr "vesper"); ("run"%string, SInt 7)]) [] =
       (http_get (ExampleRun.backwards JNull)
          (url Example.client +:+ "/query?" +:+ labels_query_string ordered),
        [] ++ [EvGet (url Example.client +:+ "/query?" +:+ labels_query_string ordered)]).
Proof.
  apply (query_labels_request (ExampleRun.backwards JNull) Example.client
           [("project"%string, SStr "vesper"); ("run"%string, SInt 7)] []).
  repeat constructor; simpl; intuition discriminate.
Defined.

(** On an interpreter that iterates the key stored last first, the label
    given last is written first. *)
Example query_labels_backwards :
  query_labels (ExampleRun.backwards JNull) Example.client
    (map scalar_item [("project"%string, SStr "vesper"); ("run"%string, SInt 7)]) [] =
  (Ok JNull,
   [EvGet ("http://localhost:8000/api/workflows/v1/query?" +:+
           "label=run:7&label=project:vesper")]).
Proof. reflexivity. Qed.


End RequestsMore.

(** ** The selection of calls: errors, effects and counts *)

Section SelectCallsMore.
Import PyStr PyJson Effects Client Cromwell Traces.

Lemma py_filter_raises {A} (p : A -> result bool) l c e0 :
  In c l -> p c = Raise e0 -> exists e, py_filter p l = Raise e.
Proof.
  intros Hin Hc. induction l as [|x l IH]; [destruct Hin|].
  cbn [py_filter]. destruct Hin as [->|Hin].
  - rewrite Hc. exists e0. reflexivity.
  - destruct (p x) as [b|e]; [|exists e; reflexivity].
    destruct (IH Hin) as [e He]. rewrite He. exists e. reflexivity.
Qed.

Lemma malformed_call_raises status c :
  malformed_call c -> exists e, first_attempt_has_status status c = Raise e.
Proof.
  intros [->|[members [later [-> Hkey]]]].
  - exists IndexError. reflexivity.
  - exists (KeyError (JStr "executionStatus")).
    unfold first_attempt_has_status. cbn [getitem0]. rewrite result_bind_ok.
    unfold getitem. rewrite Hkey. reflexivity.
Qed.

(** X10. One call without a first attempt, or whose first attempt has no
    ['executionStatus'], anywhere in the collection (also beyond the
    limit) makes [getCalls] raise before any log is read: every call is
    tested before the list is cut. *)
Theorem getCalls_malformed_call (env : environment) (status : string)
    (call_arr : list json) (c : json) (full_logs : bool) (limit_n : Z) (w : list event) :
  In c call_arr ->
  malformed_call c ->
  exists e, getCalls env status call_arr full_logs limit_n w = (Raise e, w).
Proof.
  intros Hin Hbad.
  destruct (malformed_call_raises status c Hbad) as [e0 He0].
  destruct (py_filter_raises (first_attempt_has_status status) call_arr c e0 Hin He0)
    as [e He].
  exists e. unfold getCalls, filteredCalls. rewrite He. reflexivity.
Qed.

Lemma getCalls_malformed_call_witness :
  exists e,
    getCalls (Example.env JNull) "Done" (dict_values Example.calls ++ [JList []]) true 1 [] =
    (Raise e, []).
Proof.
  apply (getCalls_malformed_call (Example.env JNull) "Done"
           (dict_values Example.calls ++ [JList []]) (JList []) true 1 []).
  - apply in_or_app. right. left. reflexivity.
  - left. reflexivity.
Defined.

Lemma mapM_parse_logs_quiet env l w :
  exists out, mapM (parse_logs env false) l w = (out, w).
Proof.
  revert w. induction l as [|x l IH]; intros w.
  - exists (Ok []). reflexivity.
  - rewrite mapM_io_cons.
    destruct (parse_logs_events env false x w) as [o1 [ev1 [-> [_ [_ Hq]]]]].
    rewrite (Hq eq_refl), app_nil_r. destruct o1 as [y|e]; [|exists (Raise e); reflexivity].
    destruct (IH w) as [o2 ->]. destruct o2 as [k|e]; eexists; reflexivity.
Qed.

(** X11. Without [full_logs], [getCalls] opens no file and makes no other
    event, and what it returns does not depend on the files at all. *)
Theorem getCalls_without_logs (env env' : environment) (status : string)
    (call_arr : list json) (limit_n : Z) (w : list event) :
  (exists out, getCalls env status call_arr false limit_n w = (out, w))
  /\ getCalls env status call_arr false limit_n w =
     getCalls env' status call_arr false limit_n w.
Proof.
  split; [|reflexivity].
  unfold getCalls. rewrite io_bind_eq. unfold lift.
  destruct (filteredCalls status call_arr) as [selected|e]; [|exists (Raise e); reflexivity].
  apply mapM_parse_logs_quiet.
Qed.

Lemma slice_to_length {A} (l : list A) n :
  Z.of_nat (length (slice_to l n)) =
  if 0 <=? n then Z.min n (Z.of_nat (length l))
  else Z.max 0 (Z.of_nat (length l) + n).
Proof.
  unfold slice_to. destruct (Z.leb_spec 0 n); rewrite List.length_firstn; lia.
Qed.

(** X12. When [getCalls] returns, it returns one summary for each
    selected attempt that the slice [[:limit_n]] keeps: the smaller of
    [limit_n] and the number selected, and for a negative [limit_n] all
    but the last [-limit_n] of them. *)
Theorem getCalls_count (env : environment) (status : string)
    (call_arr selected : list json) (full_logs : bool) (limit_n : Z)
    (w w' : list event) (jobs : list call_log) :
  filteredCalls status call_arr = Ok selected ->
  getCalls env status call_arr full_logs limit_n w = (Ok jobs, w') ->
  Z.of_nat (length jobs) =
  if 0 <=? limit_n then Z.min limit_n (Z.of_nat (length selected))
  else Z.max 0 (Z.of_nat (length selected) + limit_n).
Proof.
  intros Hsel Hrun. unfold getCalls in Hrun.
  rewrite io_bind_eq in Hrun. unfold lift in Hrun. rewrite Hsel in Hrun.
  destruct (mapM_parse_logs_events env full_logs (slice_to selected limit_n) w)
    as [out [evs [Heq [_ [Hjobs _]]]]].
  rewrite Heq in Hrun. inversion Hrun; subst.
  rewrite (Hjobs jobs eq_refl). apply slice_to_length.
Qed.

Lemma getCalls_count_witness :
  Z.of_nat (length [full_summary (Example.env JNull) "/cromwell/b/stdout" "/cromwell/b/stderr"]) =
  if 0 <=? (-1) then Z.min (-1) (Z.of_nat (length
       [Example.attempt "Done" "/cromwell/b/stdout" "/cromwell/b/stderr";
        Example.attempt "Done" "/cromwell/b/stdout" "/cromwell/b/stderr"]))
  else Z.max 0 (Z.of_nat (length
       [Example.attempt "Done" "/cromwell/b/stdout" "/cromwell/b/stderr";
        Example.attempt "Done" "/cromwell/b/stdout" "/cromwell/b/stderr"]) + (-1)).
Proof.
  apply (getCalls_count (Example.env JNull) "Done"
           (dict_values Example.calls ++ dict_values Example.calls) _ true (-1) []
           [EvOpen "/cromwell/b/stdout"; EvOpen "/cromwell/b/stderr"]);
    reflexivity.
Defined.

Lemma parse_logs_names env full_logs call w job w' :
  parse_logs env full_logs call w = (Ok job, w') ->
  getitem call "stdout" = Ok (name (stdout job))
  /\ getitem call "stderr" = Ok (name (stderr job))
  /\ (full_logs = false -> log (stdout job) = None /\ log (stderr job) = None).
Proof.
  unfold parse_logs. rewrite io_bind_eq. unfold lift at 1.
  destruct (getitem call "stdout") as [o|e]; [|discriminate].
  rewrite io_bind_eq. unfold lift at 1.
  destruct (getitem call "stderr") as [r|e]; [|discriminate].
  destruct full_logs.
  - rewrite io_bind_eq.
    destruct (read_log_events env call "stdout" w) as [o1 [ev1 [-> _]]].
    destruct o1 as [l1|e1]; [|discriminate].
    rewrite io_bind_eq.
    destruct (read_log_events env call "stderr" (w ++ ev1)) as [o2 [ev2 [-> _]]].
    destruct o2 as [l2|e2]; [|discriminate].
    intros [= <- _]. repeat split; discriminate.
  - intros [= <- _]. repeat split; reflexivity.
Qed.

Lemma mapM_parse_logs_names env full_logs l w jobs w' :
  mapM (parse_logs env full_logs) l w = (Ok jobs, w') ->
  Forall2 (fun a job =>
             getitem a "stdout" = Ok (name (stdout job))
             /\ getitem a "stderr" = Ok (name (stderr job))
             /\ (full_logs = false -> log (stdout job) = None /\ log (stderr job) = None))
          l jobs.
Proof.
  revert w jobs w'. induction l as [|x l IH]; intros w jobs w'.
  - intros [= <- _]. constructor.
  - rewrite mapM_io_cons.
    destruct (parse_logs env full_logs x w) as [[y|e] w1] eqn:Hx; [|discriminate].
    destruct (mapM (parse_logs env full_logs) l w1) as [[k|e] w2] eqn:Hl; [|discriminate].
    intros [= <- _]. constructor.
    + eapply parse_logs_names. exact Hx.
    + eapply IH. exact Hl.
Qed.

(** X13. The summaries [getCalls] returns stand in the order of the
    selected attempts, one for one, and the ['name'] of each stream is
    the value the attempt has under ['stdout'] or ['stderr'], copied as
    it is; without [full_logs] no ['log'] is set. *)
Theorem getCalls_names_in_order (env : environment) (status : string)
    (call_arr selected : list json) (full_logs : bool) (limit_n : Z)
    (w w' : list event) (jobs : list call_log) :
  filteredCalls status call_arr = Ok selected ->
  getCalls env status call_arr full_logs limit_n w = (Ok jobs, w') ->
  Forall2 (fun a job =>
             getitem a "stdout" = Ok (name (stdout job))
             /\ getitem a "stderr" = Ok (name (stderr job))
             /\ (full_logs = false -> log (stdout job) = None /\ log (stderr job) = None))
          (slice_to selected limit_n) jobs.
Proof.
  intros Hsel Hrun. unfold getCalls in Hrun.
  rewrite io_bind_eq in Hrun. unfold lift in Hrun. rewrite Hsel in Hrun.
  eapply mapM_parse_logs_names. exact Hrun.
Qed.

Lemma getCalls_names_in_order_witness :
  Forall2 (fun a job =>
             getitem a "stdout" = Ok (name (stdout job))
             /\ getitem a "stderr" = Ok (name (stderr job))
             /\ (false = false -> log (stdout job) = None /\ log (stderr job) = None))
          (slice_to [Example.attempt "Running" "/cromwell/c/stdout" "/cromwell/c/stderr"] 3)
          [mk_call_log (mk_log_entry (JStr "/cromwell/c/stdout") None)
                       (mk_log_entry (JStr "/cromwell/c/stderr") None)].
Proof.
  apply (getCalls_names_in_order (Example.env JNull) "Running"
           (dict_values Example.calls) _ false 3 [] []); reflexivity.
Defined.

End SelectCallsMore.

(** ** The summary of a workflow: missing fields and effects *)

Section ExplainWorkflowMore.
Import PyStr PyJson Effects Client Cromwell Traces.

(** [explain_workflow] on a document that is not [None]: the statements
    of lines 109-121, after the request. *)
Lemma explain_workflow_not_none env self workflow_id include_inputs w w1 doc :
  query_metadata env self workflow_id w = (Ok doc, w1) ->
  doc <> JNull ->
  explain_workflow env self workflow_id include_inputs w =
  (status ← lift (getitem doc "status");
   id ← lift (getitem doc "id");
   root ← lift (getitem doc "workflowRoot");
   '(explain_res, stdout_res) ←
     explain_jobs env doc status
       [("status"%string, RJson status); ("id"%string, RJson id);
        ("workflowRoot"%string, RJson root)] [];
   additional_res ←
     (if include_inputs then
        inputs ← lift (getitem doc "inputs");
        mret [("inputs"%string, RJson inputs)]
      else mret []);
   mret (explain_res, additional_res, stdout_res)) w1.
Proof.
  intros Hq Hdoc. unfold explain_workflow. rewrite io_bind_eq, Hq.
  destruct doc; [contradiction | reflexivity..].
Qed.

(** X14. A document that lacks ['status'], ['id'] or ['workflowRoot']
    makes [explain_workflow] raise [KeyError] for the first of them that
    is missing, in that order; nothing is returned and no file is read.
    A document with a status and no id ends this way. *)
Theorem explain_workflow_missing_key (env : environment) (self : cromwell)
    (workflow_id : string) (include_inputs : bool) (w w1 : list event)
    (members : dict json) (k : string) :
  query_metadata env self workflow_id w = (Ok (JDict members), w1) ->
  first_missing members = Some k ->
  explain_workflow env self workflow_id include_inputs w =
  (Raise (KeyError (JStr k)), w1).
Proof.
  intros Hq Hk.
  rewrite (explain_workflow_not_none env self workflow_id include_inputs w w1
             (JDict members) Hq) by discriminate.
  unfold first_missing, headline_keys in Hk. cbn [find] in Hk.
  rewrite io_bind_eq. unfold lift at 1. unfold getitem at 1.
  destruct (dict_get "status" members); [|inversion Hk; reflexivity].
  rewrite io_bind_eq. unfold lift at 1. unfold getitem at 1.
  destruct (dict_get "id" members); [|inversion Hk; reflexivity].
  rewrite io_bind_eq. unfold lift at 1. unfold getitem at 1.
  destruct (dict_get "workflowRoot" members); [discriminate Hk|].
  inversion Hk; reflexivity.
Qed.

Lemma explain_workflow_missing_key_witness :
  explain_workflow
    (Example.env (JDict [("status"%string, JStr "fail");
                         ("message"%string, JStr "Unrecognized workflow ID")]))
    Example.client "7f3a" true [] =
  (Raise (KeyError (JStr "id")),
   [EvGet "http://localhost:8000/api/workflows/v1/7f3a/metadata"]).
Proof.
  apply (explain_workflow_missing_key _ Example.client "7f3a" true []
           [EvGet "http://localhost:8000/api/workflows/v1/7f3a/metadata"]
           [("status"%string, JStr "fail");
            ("message"%string, JStr "Unrecognized workflow ID")]);
    reflexivity.
Defined.

Lemma getCalls_trace env status call_arr full_logs limit_n w :
  0 <= limit_n ->
  exists out evs,
    getCalls env status call_arr full_logs limit_n w = (out, w ++ evs)
    /\ (length evs <= 2 * Z.to_nat limit_n)%nat
    /\ Forall (fun ev => is_open ev = true) evs
    /\ (full_logs = false -> evs = []).
Proof.
  intros Hlim. destruct full_logs.
  - unfold getCalls. rewrite io_bind_eq. unfold lift.
    destruct (filteredCalls status call_arr) as [selected|e].
    + rewrite slice_to_nonneg by exact Hlim.
      destruct (mapM_parse_logs_events env true (firstn (Z.to_nat limit_n) selected) w)
        as [out [evs [-> [Hlen [_ Hev]]]]].
      pose proof (firstn_le_length (Z.to_nat limit_n) selected).
      exists out, evs. split; [reflexivity|]. split; [lia|]. split; [|discriminate].
      eapply List.Forall_impl; [|exact Hev].
      intros ev [a [_ [path [-> _]]]]. reflexivity.
    + exists (Raise e), []. rewrite app_nil_r. repeat split; auto with arith.
  - unfold getCalls. rewrite io_bind_eq. unfold lift.
    destruct (filteredCalls status call_arr) as [selected|e].
    + destruct (mapM_parse_logs_quiet env (slice_to selected limit_n) w) as [out ->].
      exists out, []. rewrite app_nil_r. repeat split; auto with arith.
    + exists (Raise e), []. rewrite app_nil_r. repeat split; auto with arith.
Qed.

Lemma explain_jobs_trace env doc st er sr w :
  exists out evs,
    explain_jobs env doc st er sr w = (out, w ++ evs)
    /\ (length evs <= 6)%nat
    /\ Forall (fun ev => is_open ev = true) evs
    /\ (st <> JStr "Failed" -> evs = []).
Proof.
  assert (Hnone : forall out : result (dict res_value * dict res_value),
            exists out' evs, (out, w) = (out', w ++ evs) /\ (length evs <= 6)%nat
              /\ Forall (fun ev => is_open ev = true) evs
              /\ (st <> JStr "Failed" -> evs = [])).
  { intros out. exists out, []. rewrite app_nil_r. repeat split; auto with arith. }
  unfold explain_jobs. destruct (json_eq_str st "Failed") eqn:Ef.
  - rewrite io_bind_eq. unfold lift at 1.
    destruct (getitem doc "calls") as [calls|e]; [|apply Hnone].
    rewrite io_bind_eq. unfold lift at 1.
    destruct (values calls) as [call_arr|e]; [|apply Hnone].
    rewrite io_bind_eq.
    destruct (getCalls_trace env "RetryableFailure" call_arr true 3 w ltac:(lia))
      as [out [evs [-> [Hlen [Hev _]]]]].
    apply json_eq_str_true in Ef.
    destruct out as [jobs|e]; eexists _, evs; (split; [reflexivity|]);
      (split; [simpl in Hlen; lia|]); (split; [exact Hev | contradiction]).
  - destruct (json_eq_str st "Running").
    + rewrite io_bind_eq. unfold lift at 1.
      destruct (getitem doc "calls") as [calls|e]; [|apply Hnone].
      rewrite io_bind_eq. unfold lift at 1.
      destruct (values calls) as [call_arr|e]; [|apply Hnone].
      rewrite io_bind_eq.
      destruct (getCalls_trace env "Running" call_arr false 3 w ltac:(lia))
        as [out [evs [-> [_ [_ Hq]]]]].
      rewrite (Hq eq_refl), app_nil_r. destruct out; apply Hnone.
    + apply Hnone.
Qed.

(** X15. However many calls a workflow has, [explain_workflow] makes one
    request (for the metadata) and then at most six events: it reads the
    logs of at most three failed calls, two files each, and reads no file
    at all unless the status is ['Failed']. *)
Theorem explain_workflow_trace (env : environment) (self : cromwell)
    (workflow_id : string) (include_inputs : bool) (w w1 : list event) (doc : json) :
  query_metadata env self workflow_id w = (Ok doc, w1) ->
  exists out evs,
    explain_workflow env self workflow_id include_inputs w = (out, w1 ++ evs)
    /\ (length evs <= 6)%nat
    /\ Forall (fun ev => is_request ev = false) evs
    /\ (getitem doc "status" <> Ok (JStr "Failed") ->
        Forall (fun ev => is_open ev = false) evs).
Proof.
  intros Hq.
  assert (Hnone : forall out : result (dict res_value * dict res_value * dict res_value),
            exists out' evs, (out, w1) = (out', w1 ++ evs) /\ (length evs <= 6)%nat
              /\ Forall (fun ev => is_request ev = false) evs
              /\ (getitem doc "status" <> Ok (JStr "Failed") ->
                  Forall (fun ev => is_open ev = false) evs)).
  { intros out. exists out, []. rewrite app_nil_r. repeat split; auto with arith. }
  assert (Hd : doc = JNull \/ doc <> JNull)
    by (destruct doc; [left; reflexivity | right; discriminate..]).
  destruct Hd as [->|Hdoc].
  - unfold explain_workflow. rewrite io_bind_eq, Hq.
    exists (Ok ([], [], [])), [EvPrint "Workflow not found."].
    split; [reflexivity|]. split; [simpl; lia|].
    split; repeat constructor.
  - rewrite (explain_workflow_not_none env self workflow_id include_inputs w w1 doc Hq Hdoc).
    rewrite io_bind_eq. unfold lift at 1.
    destruct (getitem doc "status") as [st|e]; [|apply Hnone].
    rewrite io_bind_eq. unfold lift at 1.
    destruct (getitem doc "id") as [i|e]; [|apply Hnone].
    rewrite io_bind_eq. unfold lift at 1.
    destruct (getitem doc "workflowRoot") as [root|e]; [|apply Hnone].
    rewrite io_bind_eq.
    destruct (explain_jobs_trace env doc st
                [("status"%string, RJson st); ("id"%string, RJson i);
                 ("workflowRoot"%string, RJson root)] [] w1)
      as [out [evs [-> [Hlen [Hev Hq']]]]].
    assert (Hreq : Forall (fun ev => is_request ev = false) evs).
    { eapply List.Forall_impl; [|exact Hev]. intros [] H; try discriminate H; reflexivity. }
    assert (Hopen : Ok st <> Ok (JStr "Failed") -> Forall (fun ev => is_open ev = false) evs).
    { intros Hne. rewrite Hq'; [constructor|]. intros ->. apply Hne. reflexivity. }
    destruct out as [[er sr]|e]; [|exists (Raise e), evs; auto].
    destruct include_inputs.
    + rewrite io_bind_eq, io_bind_eq. unfold lift at 1.
      destruct (getitem doc "inputs"); eexists _, evs; (split; [reflexivity | auto]).
    + eexists _, evs. split; [reflexivity | auto].
Qed.

Lemma explain_workflow_trace_witness :
  exists out evs,
    explain_workflow (Example.env (Example.metadata "Failed")) Example.client "7f3a" true [] =
    (out, [EvGet "http://localhost:8000/api/workflows/v1/7f3a/metadata"] ++ evs)
    /\ (length evs <= 6)%nat
    /\ Forall (fun ev => is_request ev = false) evs
    /\ (getitem (Example.metadata "Failed") "status" <> Ok (JStr "Failed") ->
        Forall (fun ev => is_open ev = false) evs).
Proof.
  apply (explain_workflow_trace (Example.env (Example.metadata "Failed")) Example.client
           "7f3a" true []).
  reflexivity.
Defined.

End ExplainWorkflowMore.

(** ** The submission of a workflow: failures and the form *)

Section SubmissionMore.
Import PyStr PyJson Effects Client Cromwell Traces.

Lemma jstart_workflow_unreadable_inputs env self wdl_file json_file dependencies
    wdl_string disable_caching w e :
  startswith json_file "{" = false ->
  file_content env json_file = inl e ->
  jstart_workflow env self wdl_file json_file dependencies wdl_string disable_caching w =
  (Raise (IOError e), w ++ [EvOpen json_file]).
Proof.
  intros Hs Hf. unfold jstart_workflow. rewrite io_bind_eq.
  unfold j_args. rewrite Hs. cbn [negb].
  rewrite io_bind_eq. unfold open. rewrite Hf. reflexivity.
Qed.

(** X16. When the JSON inputs are a file path and the file cannot be
    opened, cannot be parsed, or holds something that is not an object,
    [jstart_workflow] raises (the [IOError], the error of the parser, or
    a [TypeError]) after opening that one file: no other file is opened
    and nothing is posted. *)
Theorem jstart_workflow_bad_inputs (env : environment) (self : cromwell)
    (wdl_file json_file : string) (dependencies : option string)
    (wdl_string disable_caching : bool) (w : list event) :
  startswith json_file "{" = false ->
  let run := jstart_workflow env self wdl_file json_file dependencies wdl_string
               disable_caching w in
  (forall e, file_content env json_file = inl e ->
     run = (Raise (IOError e), w ++ [EvOpen json_file]))
  /\ (forall text e, file_content env json_file = inr text ->
        json_loads env text = Raise e ->
        run = (Raise e, w ++ [EvOpen json_file]))
  /\ (forall text j, file_content env json_file = inr text ->
        json_loads env text = Ok j -> (forall members, j <> JDict members) ->
        run = (Raise TypeError, w ++ [EvOpen json_file])).
Proof.
  intros Hs run. subst run.
  split; [intros e Hf; apply jstart_workflow_unreadable_inputs; assumption|].
  unfold jstart_workflow. rewrite io_bind_eq.
  unfold j_args. rewrite Hs. cbn [negb].
  split.
  - intros text e Hf Hl. rewrite io_bind_eq. unfold open. rewrite Hf.
    rewrite io_bind_eq. unfold read, lift at 1. rewrite Hf.
    rewrite io_bind_eq. unfold lift at 1. rewrite Hl. reflexivity.
  - intros text j Hf Hl Hj. rewrite io_bind_eq. unfold open. rewrite Hf.
    rewrite io_bind_eq. unfold read, lift at 1. rewrite Hf.
    rewrite io_bind_eq. unfold lift at 1. rewrite Hl.
    destruct j; try reflexivity. exfalso. eapply Hj. reflexivity.
Qed.

Lemma jstart_workflow_bad_inputs_witness :
  jstart_workflow (Example.env JNull) Example.client "hello.wdl" "missing.json"
    None false false [] =
  (Raise (IOError (IOErr 2 "missing.json")), [] ++ [EvOpen "missing.json"]).
Proof.
  apply (proj1 (jstart_workflow_bad_inputs (Example.env JNull) Example.client
                  "hello.wdl" "missing.json" None false false [] eq_refl)).
  reflexivity.
Defined.

Lemma open_readable env path w :
  readable env path = true -> open env (JStr path) w = (Ok path, w ++ [EvOpen path]).
Proof.
  unfold open, readable. destruct (file_content env path); [discriminate | reflexivity].
Qed.

Lemma open_unreadable env path w :
  readable env path = false ->
  exists e, open env (JStr path) w = (Raise (IOError e), w ++ [EvOpen path]).
Proof.
  unfold open, readable. destruct (file_content env path) as [e|]; [|discriminate].
  exists e. reflexivity.
Qed.

(** X17. When the WDL file or the dependencies cannot be opened,
    [jstart_workflow] raises the [IOError] and posts nothing: all it has
    done after reading the inputs is to open files. *)
Theorem jstart_workflow_unreadable_sources (env : environment) (self : cromwell)
    (wdl_file json_file : string) (dependencies : option string)
    (wdl_string disable_caching : bool) (w w1 : list event) (args : string) :
  j_args env json_file w = (Ok args, w1) ->
  sources_readable env wdl_file dependencies wdl_string = false ->
  exists e evs,
    jstart_workflow env self wdl_file json_file dependencies wdl_string disable_caching w =
    (Raise (IOError e), w1 ++ evs)
    /\ Forall (fun ev => is_open ev = true) evs.
Proof.
  intros Hargs Hsrc. unfold sources_readable in Hsrc.
  unfold jstart_workflow. rewrite io_bind_eq, Hargs.
  destruct wdl_string; cbn [negb orb andb] in *.
  - destruct dependencies as [[|c rest]|]; try discriminate Hsrc.
    destruct (open_unreadable env (String c rest) w1 Hsrc) as [e He].
    exists e, [EvOpen (String c rest)].
    split; [|repeat constructor].
    rewrite io_bind_eq. cbn [mret io_ret]. rewrite io_bind_eq, io_bind_eq, He.
    reflexivity.
  - destruct (readable env wdl_file) eqn:Hw; cbn [andb] in Hsrc.
    + destruct dependencies as [[|c rest]|]; try discriminate Hsrc.
      destruct (open_unreadable env (String c rest) (w1 ++ [EvOpen wdl_file]) Hsrc)
        as [e He].
      exists e, [EvOpen wdl_file; EvOpen (String c rest)].
      split; [|repeat constructor].
      rewrite io_bind_eq, io_bind_eq, (open_readable env wdl_file w1 Hw).
      cbn [mret io_ret]. rewrite io_bind_eq, io_bind_eq, He.
      rewrite <- app_assoc. reflexivity.
    + destruct (open_unreadable env wdl_file w1 Hw) as [e He].
      exists e, [EvOpen wdl_file]. split; [|repeat constructor].
      rewrite io_bind_eq, io_bind_eq, He. reflexivity.
Qed.

Lemma jstart_workflow_unreadable_sources_witness :
  exists e evs,
    jstart_workflow (Example.env JNull) Example.client "missing.wdl" "inputs.json"
      None false false [] =
    (Raise (IOError e), [EvOpen "inputs.json"] ++ evs)
    /\ Forall (fun ev => is_open ev = true) evs.
Proof.
  apply (jstart_workflow_unreadable_sources (Example.env JNull) Example.client
           "missing.wdl" "inputs.json" None false false [] [EvOpen "inputs.json"]
           (dumps (JDict [("user"%string, JStr "amr")]))); reflexivity.
Defined.

Lemma dict_set_keys {V} k (v : V) d :
  map fst (dict_set k v d) =
  match dict_get k d with
  | Some _ => map fst d
  | None => map fst d ++ [k]
  end.
Proof.
  induction d as [|[a b] d IH]; simpl; [reflexivity|].
  destruct (String.eqb_spec k a) as [->|Hne]; simpl; [reflexivity|].
  rewrite IH. destruct (dict_get k d); reflexivity.
Qed.

(** X18. The user is set in the object read from the inputs file, not
    added beside it: the object posted has the keys of the file, and
    ['user'] with them when the file had none, each key once when the
    file has each once (a ['user'] of the file is replaced, not
    repeated), its ['user'] is the user of the submission, and every
    other member keeps its value. In which order the members are written
    is the interpreter's matter. *)
Theorem jstart_workflow_sets_user (env : environment) (self : cromwell)
    (wdl_file json_file : string) (dependencies : option string)
    (wdl_string disable_caching : bool) (w : list event)
    (text : string) (members : dict json) :
  startswith json_file "{" = false ->
  file_content env json_file = inr text ->
  json_loads env text = Ok (JDict members) ->
  sources_readable env wdl_file dependencies wdl_string = true ->
  exists files members',
    jstart_workflow env self wdl_file json_file dependencies wdl_string disable_caching w =
    (http_post env (url self) files,
     (w ++ [EvOpen json_file])
     ++ form_events wdl_file dependencies wdl_string disable_caching
     ++ [EvPost (url self) files])
    /\ inputs_payload files = Some (dumps (JDict members'))
    /\ dict_get "user" members' = Some (JStr (getuser env))
    /\ (forall k, k <> "user"%string -> dict_get k members' = dict_get k members)
    /\ Permutation (map fst members')
         (match dict_get "user" members with
          | Some _ => map fst members
          | None => map fst members ++ ["user"%string]
          end)
    /\ (List.NoDup (map fst members) -> List.NoDup (map fst members')).
Proof.
  intros Hs Hf Hl Hsrc.
  destruct (jstart_workflow_posts env self wdl_file json_file dependencies wdl_string
              disable_caching w _ _ (j_args_file env json_file text members w Hs Hf Hl) Hsrc)
    as [files [Hrun Hpay]].
  destruct (user_set_items env members) as [Huser [Hrest Hkeys]].
  rewrite dict_set_keys in Hkeys.
  exists files, (dict_items env (dict_set "user" (JStr (getuser env)) members)).
  split; [exact Hrun|]. split; [exact Hpay|].
  split; [exact Huser|]. split; [exact Hrest|]. split; [exact Hkeys|].
  intros Hnd. eapply Permutation_NoDup; [apply Permutation_sym; exact Hkeys|].
  destruct (dict_get "user" members) eqn:Hu; [exact Hnd|].
  eapply Permutation_NoDup; [apply Permutation_cons_append|].
  constructor; [apply dict_get_none_keys; exact Hu | exact Hnd].
Qed.

Lemma jstart_workflow_sets_user_witness :
  exists files members',
    jstart_workflow (ExampleRun.backwards JNull) Example.client "hello.wdl" "inputs.json"
      None false false [] =
    (http_post (ExampleRun.backwards JNull) (url Example.client) files,
     ([] ++ [EvOpen "inputs.json"])
     ++ form_events "hello.wdl" None false false
     ++ [EvPost (url Example.client) files])
    /\ inputs_payload files = Some (dumps (JDict members'))
    /\ dict_get "user" members' = Some (JStr (getuser (ExampleRun.backwards JNull)))
    /\ (forall k, k <> "user"%string -> dict_get k members' = dict_get k [])
    /\ Permutation (map fst members')
         (match dict_get "user" ([] : dict json) with
          | Some _ => map fst ([] : dict json)
          | None => map fst ([] : dict json) ++ ["user"%string]
          end)
    /\ (List.NoDup (map fst ([] : dict json)) -> List.NoDup (map fst members')).
Proof.
  apply (jstart_workflow_sets_user (ExampleRun.backwards JNull) Example.client "hello.wdl"
           "inputs.json" None false false [] "{}" []); reflexivity.
Defined.

End SubmissionMore.

(** ** The form, and the other submissions *)

Ltac finish_form :=
  cbv [mbind Effects.io_bind mret Effects.io_ret Effects.emit Effects.lift
       Cromwell.form_events];
  rewrite <- ?app_assoc; cbn [app]; reflexivity.

Section FormAndRestart.
Import PyStr PyJson Effects Client Cromwell Traces Submit.

(** X19. The form [jstart_workflow] posts has the WDL (the text itself
    under the name [workflow.wdl], or the open file under its path) and
    the inputs; the dependencies are a part exactly when a path that is
    not empty is given, and the options [{"read_from_cache":false}] are a
    part exactly when caching is disabled. *)
Theorem jstart_workflow_form (env : environment) (self : cromwell)
    (wdl_file json_file : string) (dependencies : option string)
    (wdl_string disable_caching : bool) (w w1 : list event) (args : string) :
  j_args env json_file w = (Ok args, w1) ->
  sources_readable env wdl_file dependencies wdl_string = true ->
  exists files,
    jstart_workflow env self wdl_file json_file dependencies wdl_string disable_caching w =
    (http_post env (url self) files,
     w1 ++ form_events wdl_file dependencies wdl_string disable_caching
        ++ [EvPost (url self) files])
    /\ dict_get "wdlSource" files =
       Some (if wdl_string
             then ("workflow.wdl"%string, Text wdl_file, "application/text-plain"%string)
             else (wdl_file, FileObj wdl_file, "application/octet-stream"%string))
    /\ dict_get "workflowInputs" files =
       Some ("report.csv"%string, Text args, "application/json"%string)
    /\ dict_get "wdlDependencies" files =
       match dependencies with
       | Some (String _ _ as path) => Some (path, FileObj path, "application/zip"%string)
       | _ => None
       end
    /\ dict_get "workflowOptions" files =
       (if disable_caching
        then Some ("options.json"%string, Text options_no_cache, "application/json"%string)
        else None)
    /\ length files =
       (2 + (match dependencies with Some (String _ _) => 1 | _ => 0 end)
          + (if disable_caching then 1 else 0))%nat.
Proof.
  intros Hargs Hsrc. unfold sources_readable in Hsrc.
  apply andb_true_iff in Hsrc as [Hwdl Hdeps].
  unfold jstart_workflow. rewrite io_bind_eq, Hargs.
  destruct wdl_string; cbn [negb orb] in *.
  - rewrite io_bind_eq. cbn [mret io_ret].
    destruct dependencies as [[|c rest]|].
    + destruct disable_caching; eexists; (split; [finish_form | repeat split]).
    + rewrite io_bind_eq, io_bind_eq, (open_readable _ _ _ Hdeps).
      destruct disable_caching; eexists; (split; [finish_form | repeat split]).
    + destruct disable_caching; eexists; (split; [finish_form | repeat split]).
  - rewrite io_bind_eq, io_bind_eq, (open_readable _ _ _ Hwdl). cbn [mret io_ret].
    destruct dependencies as [[|c rest]|].
    + destruct disable_caching; eexists; (split; [finish_form | repeat split]).
    + rewrite io_bind_eq, io_bind_eq, (open_readable _ _ _ Hdeps).
      destruct disable_caching; eexists; (split; [finish_form | repeat split]).
    + destruct disable_caching; eexists; (split; [finish_form | repeat split]).
Qed.

Lemma jstart_workflow_form_witness :
  exists files,
    jstart_workflow (Example.env JNull) Example.client "hello.wdl" "{}"
      (Some "hello.wdl"%string) false true [] =
    (http_post (Example.env JNull) (url Example.client) files,
     [] ++ form_events "hello.wdl" (Some "hello.wdl"%string) false true
        ++ [EvPost (url Example.client) files])
    /\ dict_get "wdlSource" files =
       Some (if false
             then ("workflow.wdl"%string, Text "hello.wdl", "application/text-plain"%string)
             else ("hello.wdl"%string, FileObj "hello.wdl", "application/octet-stream"%string))
    /\ dict_get "workflowInputs" files =
       Some ("report.csv"%string, Text "{}", "application/json"%string)
    /\ dict_get "wdlDependencies" files =
       Some ("hello.wdl"%string, FileObj "hello.wdl", "application/zip"%string)
    /\ dict_get "workflowOptions" files =
       (if true
        then Some ("options.json"%string, Text options_no_cache, "application/json"%string)
        else None)
    /\ length files = (2 + 1 + (if true then 1 else 0))%nat.
Proof.
  apply (jstart_workflow_form (Example.env JNull) Example.client "hello.wdl" "{}"
           (Some "hello.wdl"%string) false true [] [] "{}"); reflexivity.
Defined.




(** X21. Restarting a workflow whose metadata has no ['submittedFiles'],
    or whose submitted files lack the inputs or the workflow, returns
    [None]: the [KeyError] is caught, and nothing is posted. *)
Theorem restart_workflow_missing_files (env : environment) (self : cromwell)
    (workflow_id : string) (disable_caching : bool) (w w1 : list event)
    (members : dict json) :
  query_metadata env self workflow_id w = (Ok (JDict members), w1) ->
  (dict_get "submittedFiles" members = None
   \/ exists sub, dict_get "submittedFiles" members = Some (JDict sub)
        /\ (dict_get "inputs" sub = None \/ dict_get "workflow" sub = None)) ->
  restart_workflow env self workflow_id disable_caching w = (Ok JNull, w1).
Proof.
  intros Hq Hmiss. unfold restart_workflow. rewrite io_bind_eq, Hq.
  unfold try_except_KeyError.
  rewrite io_bind_eq. unfold lift at 1. unfold getitem at 1.
  destruct Hmiss as [Hsub|[sub [Hsub Hmiss]]]; rewrite Hsub; [reflexivity|].
  rewrite io_bind_eq. unfold lift at 1. unfold getitem at 1.
  destruct (dict_get "inputs" sub) as [i|] eqn:Hin; [|reflexivity].
  destruct Hmiss as [Hi|Hw]; [discriminate Hi|].
  rewrite io_bind_eq. unfold lift at 1. unfold getitem at 1. rewrite Hsub.
  rewrite io_bind_eq. unfold lift at 1. unfold getitem at 1. rewrite Hw.
  reflexivity.
Qed.

Lemma restart_workflow_missing_files_witness :
  restart_workflow (Example.env (Example.metadata "Failed")) Example.client "7f3a" true [] =
  (Ok JNull, [EvGet "http://localhost:8000/api/workflows/v1/7f3a/metadata"]).
Proof.
  apply (restart_workflow_missing_files _ Example.client "7f3a" true [] _
           [("status"%string, JStr "Failed"); ("id"%string, JStr "7f3a");
            ("workflowRoot"%string, JStr "/cromwell/hello/7f3a");
            ("calls"%string, JDict Example.calls);
            ("inputs"%string, JDict [("hello.name"%string, JStr "world")])]).
  - reflexivity.
  - left. reflexivity.
Defined.



Lemma dict_get_map_none {V} (f : string -> string) (items : list (string * V)) k :
  (forall item, In item items -> f (fst item) <> k) ->
  dict_get k (map (fun item => (f (fst item), snd item)) items) = None.
Proof.
  induction items as [|x items IH]; intros H; simpl; [reflexivity|].
  destruct (String.eqb_spec k (f (fst x))) as [->|_].
  - exfalso. apply (H x); [left|]; reflexivity.
  - apply IH. intros item Hin. apply H. right. exact Hin.
Qed.

Lemma dotted_not_user name key : name +:+ "." +:+ key <> "user"%string.
Proof.
  intros H.
  apply (f_equal (all_chars (fun c => negb (Ascii.eqb c ".")))) in H.
  rewrite all_chars_app in H. change ("." +:+ key) with (String "." key) in H.
  cbn in H. rewrite andb_false_r in H. discriminate H.
Qed.

(** X23. [start_workflow] always sends the user: whatever the arguments
    are, the inputs it prints and posts are an object whose ['user'] is
    the user [getpass.getuser] reports. It prints them, opens the WDL
    and the dependencies, and posts once. *)
Theorem start_workflow_sends_user (env : environment) (self : cromwell)
    (wdl_file workflow_name : string) (workflow_args : dict json)
    (dependencies : option string) (w : list event) :
  sources_readable env wdl_file dependencies false = true ->
  let args := args_string env workflow_name workflow_args in
  exists files,
    start_workflow env self wdl_file workflow_name workflow_args dependencies w =
    (http_post env (url self) files,
     w ++ [EvPrint "args_string:"; EvPrint args]
       ++ form_events wdl_file dependencies false false
       ++ [EvPost (url self) files])
    /\ inputs_payload files = Some args
    /\ has_user (getuser env) args.
Proof.
  intros Hsrc args. unfold sources_readable in Hsrc. cbn [orb] in Hsrc.
  apply andb_true_iff in Hsrc as [Hwdl Hdeps].
  assert (Huser : has_user (getuser env) args).
  { eexists. split; [|reflexivity]. rewrite dict_get_items. apply dict_get_set. }
  unfold start_workflow. fold args.
  rewrite io_bind_eq. cbn [emit]. rewrite io_bind_eq. cbn [emit].
  rewrite io_bind_eq, (open_readable _ _ _ Hwdl).
  destruct dependencies as [[|c rest]|].
  - eexists. split; [finish_form | split; [reflexivity | exact Huser]].
  - rewrite io_bind_eq, io_bind_eq, (open_readable _ _ _ Hdeps).
    eexists. split; [finish_form | split; [reflexivity | exact Huser]].
  - eexists. split; [finish_form | split; [reflexivity | exact Huser]].
Qed.

Lemma start_workflow_sends_user_witness :
  exists files,
    start_workflow (Example.env JNull) Example.client "hello.wdl" "hello"
      [("user"%string, JStr "root")] None [] =
    (http_post (Example.env JNull) (url Example.client) files,
     [] ++ [EvPrint "args_string:";
            EvPrint (args_string (Example.env JNull) "hello" [("user"%string, JStr "root")])]
        ++ form_events "hello.wdl" None false false
        ++ [EvPost (url Example.client) files])
    /\ inputs_payload files =
       Some (args_string (Example.env JNull) "hello" [("user"%string, JStr "root")])
    /\ has_user (getuser (Example.env JNull))
         (args_string (Example.env JNull) "hello" [("user"%string, JStr "root")]).
Proof.
  apply (start_workflow_sends_user (Example.env JNull) Example.client "hello.wdl" "hello"
           [("user"%string, JStr "root")] None []).
  reflexivity.
Defined.

Lemma NoDup_map_injective (f : string -> string) (ks : list string) :
  (forall a b, f a = f b -> a = b) ->
  List.NoDup ks -> List.NoDup (map f ks).
Proof.
  intros Hinj. induction 1 as [|k ks Hk Hks IH]; cbn [map]; constructor; [|exact IH].
  intros Hin. apply in_map_iff in Hin as [k' [E Hk']].
  apply Hinj in E. subst k'. exact (Hk Hk').
Qed.

(** X24. The inputs [start_workflow] sends are an object whose members
    are the arguments, each once under its name after the workflow name
    and a dot and with its value, and the user; they are written in the
    order in which the interpreter iterates the dictionary the method
    has filled, which need not be the order of the mapping. An argument
    that is itself called ['user'] is sent under its dotted name and is
    not lost. *)
Theorem start_workflow_arguments (env : environment) (workflow_name : string)
    (workflow_args : dict json) :
  List.NoDup (map fst workflow_args) ->
  let stored :=
    map (fun item => (workflow_name +:+ "." +:+ fst item, snd item)) workflow_args
    ++ [("user"%string, JStr (getuser env))] in
  exists members,
    Permutation members stored
    /\ map fst members = key_order env (map fst stored)
    /\ args_string env workflow_name workflow_args = dumps (JDict members).
Proof.
  intros Hnd stored. unfold args_string, json_workflow_args.
  rewrite (fold_dict_set_distinct (fun k => workflow_name +:+ "." +:+ k));
    [| intros a b H; apply sapp_inj in H; apply sapp_inj in H; exact H
     | exact Hnd
     | reflexivity].
  cbn [app]. rewrite dict_set_fresh
    by (apply (dict_get_map_none (fun k => workflow_name +:+ "." +:+ k));
        intros item _; apply dotted_not_user).
  fold stored. exists (dict_items env stored).
  split; [|split; [apply dict_items_keys | reflexivity]].
  apply dict_items_permutes. subst stored. rewrite map_app, map_map. cbn [map fst].
  eapply Permutation_NoDup; [apply Permutation_cons_append|].
  constructor.
  - intros Hin. apply in_map_iff in Hin as [item [E _]].
    exact (dotted_not_user _ _ E).
  - rewrite <- (map_map fst (fun k => workflow_name +:+ "." +:+ k)).
    apply NoDup_map_injective; [|exact Hnd].
    intros a b H. apply sapp_inj in H. apply sapp_inj in H. exact H.
Qed.

Lemma start_workflow_arguments_witness :
  let stored :=
    map (fun item => ("hello" +:+ "." +:+ fst item, snd item))
        [("name"%string, JStr "world"); ("user"%string, JStr "root")]
    ++ [("user"%string, JStr (getuser (ExampleRun.backwards JNull)))] in
  exists members,
    Permutation members stored
    /\ map fst members = key_order (ExampleRun.backwards JNull) (map fst stored)
    /\ args_string (ExampleRun.backwards JNull) "hello"
         [("name"%string, JStr "world"); ("user"%string, JStr "root")] =
       dumps (JDict members).
Proof.
  apply (start_workflow_arguments (ExampleRun.backwards JNull) "hello"
           [("name"%string, JStr "world"); ("user"%string, JStr "root")]).
  repeat constructor; simpl; intuition discriminate.
Defined.

(** On an interpreter that iterates the key stored last first, the user
    is written first. *)
Example args_string_backwards :
  args_string (ExampleRun.backwards JNull) "hello" [("name"%string, JStr "world")] =
  dumps (JDict [("user"%string, JStr "amr"); ("hello.name"%string, JStr "world")]).
Proof. reflexivity. Qed.

End FormAndRestart.

(** ** The commands *)

Section Commands.
Import PyStr PyJson Effects Client Cromwell Traces Requests Widdler.

Lemma flag_step (flag : bool) (q : io json) (responses : list json) w r ev :
  (flag = true -> q w = (Ok r, w ++ [ev])) ->
  (if flag then x ← q; mret (responses ++ [x]) else mret responses) w =
  (Ok (responses ++ (if flag then [r] else [])), w ++ (if flag then [ev] else [])).
Proof.
  intros H. destruct flag.
  - rewrite io_bind_eq, (H eq_refl). reflexivity.
  - rewrite !app_nil_r. reflexivity.
Qed.

(** X25. [call_query] makes one GET request for each flag that is set,
    in the order status, metadata, logs, to the client of the server at
    port 9000 (8000 for [localhost]), and returns the answers in that
    order; with no flag set it makes no request and returns the empty
    list. *)
Theorem call_query_requests (env : environment) (server workflow_id : string)
    (status metadata logs : bool) (w : list event) (rs rm rl : json) :
  workflow_id <> ""%string ->
  let at_ := fun rtype : string =>
    url (init server 9000) +:+ "/" +:+ workflow_id +:+ "/" +:+ rtype in
  (status = true -> http_get env (at_ "status") = Ok rs) ->
  (metadata = true -> http_get env (at_ "metadata") = Ok rm) ->
  (logs = true -> http_get env (at_ "logs") = Ok rl) ->
  call_query env server workflow_id status metadata logs w =
  (Ok ((if status then [rs] else []) ++ (if metadata then [rm] else [])
       ++ (if logs then [rl] else [])),
   w ++ map (fun rtype => EvGet (at_ rtype)) (requested status metadata logs)).
Proof.
  intros Hne at_ Hs Hm Hl. unfold call_query.
  rewrite io_bind_eq.
  rewrite (flag_step status (query_status env (init server 9000) workflow_id) [] w rs
             (EvGet (at_ "status")))
    by (intros E; unfold query_status; rewrite get_request by exact Hne;
        fold (at_ "status"); rewrite (Hs E); reflexivity).
  rewrite io_bind_eq.
  rewrite (flag_step metadata (query_metadata env (init server 9000) workflow_id) _ _ rm
             (EvGet (at_ "metadata")))
    by (intros E; unfold query_metadata; rewrite get_request by exact Hne;
        fold (at_ "metadata"); rewrite (Hm E); reflexivity).
  rewrite io_bind_eq.
  rewrite (flag_step logs (query_logs env (init server 9000) workflow_id) _ _ rl
             (EvGet (at_ "logs")))
    by (intros E; unfold query_logs; rewrite get_request by exact Hne;
        fold (at_ "logs"); rewrite (Hl E); reflexivity).
  unfold requested. rewrite !map_app, <- !app_assoc.
  destruct status, metadata, logs; reflexivity.
Qed.

Lemma call_query_requests_witness :
  call_query (Example.env (JStr "Running")) "btl-cromwell" "7f3a" true false true [] =
  (Ok ((if true then [JStr "Running"] else []) ++ (if false then [JNull] else [])
       ++ (if true then [JStr "Running"] else [])),
   [] ++ map (fun rtype =>
                EvGet (url (init "btl-cromwell" 9000) +:+ "/" +:+ "7f3a" +:+ "/" +:+ rtype))
             (requested true false true)).
Proof.
  apply (call_query_requests (Example.env (JStr "Running")) "btl-cromwell" "7f3a"
           true false true [] (JStr "Running") JNull (JStr "Running"));
    try reflexivity; discriminate.
Defined.

(** X26. A request of [call_query] that fails ends it: when the status
    request raises, the exception is raised, and neither the metadata
    nor the logs are asked for. *)
Theorem call_query_stops_at_failure (env : environment) (server workflow_id : string)
    (metadata logs : bool) (w : list event) (e : exn) :
  workflow_id <> ""%string ->
  let status_url :=
    url (init server 9000) +:+ "/" +:+ workflow_id +:+ "/" +:+ "status" in
  http_get env status_url = Raise e ->
  call_query env server workflow_id true metadata logs w =
  (Raise e, w ++ [EvGet status_url]).
Proof.
  intros Hne status_url He. unfold call_query.
  rewrite io_bind_eq, io_bind_eq. unfold query_status.
  rewrite get_request by exact Hne. fold status_url. rewrite He. reflexivity.
Qed.

Lemma call_query_stops_at_failure_witness :
  call_query
    ExampleRun.unreachable "btl-cromwell" "7f3a" true true true [] =
  (Raise ConnectionError,
   [] ++ [EvGet (url (init "btl-cromwell" 9000) +:+ "/" +:+ "7f3a" +:+ "/" +:+ "status")]).
Proof.
  apply (call_query_stops_at_failure ExampleRun.unreachable
           "btl-cromwell" "7f3a" true true [] ConnectionError);
    [discriminate | reflexivity].
Defined.

(** X27. When validation is asked for and the validator reports errors,
    [call_run] prints the name of the inputs file and the errors, one on
    a line, and exits with code -1: no client is made, no file is opened
    for a form and nothing is posted. *)
Theorem call_run_validation_errors (env : environment) (v : validator)
    (wdl json_path : string) (dependencies : option string) (server : string)
    (w w1 w2 : list event) (errors : list string) :
  construct v w = (Ok tt, w1) ->
  validate_json v w1 = (Ok errors, w2) ->
  errors <> [] ->
  call_run env v wdl json_path true dependencies server w =
  (Ok (Exited (-1)), w2 ++ [EvPrint (errors_message json_path errors)]).
Proof.
  intros Hc Hv Hne. unfold call_run.
  rewrite io_bind_eq, Hc. rewrite io_bind_eq, io_bind_eq, Hv.
  destruct errors as [|x errors]; [contradiction|]. reflexivity.
Qed.

Lemma call_run_validation_errors_witness :
  call_run (Example.env JNull)
    ExampleRun.strict
    "hello.wdl" "inputs.json" true None "localhost" [] =
  (Ok (Exited (-1)),
   [] ++ [EvPrint (errors_message "inputs.json" ["hello.name is missing"%string])]).
Proof.
  apply (call_run_validation_errors (Example.env JNull)
           ExampleRun.strict
           "hello.wdl" "inputs.json" None "localhost" [] [] []);
    [reflexivity | reflexivity | discriminate].
Defined.

Lemma call_run_submits env v wdl json_path (validate : bool) dependencies server w w1 w2 :
  construct v w = (Ok tt, w1) ->
  (if validate then validate_json v w1 = (Ok [], w2) else w2 = w1) ->
  call_run env v wdl json_path validate dependencies server w =
  match jstart_workflow env (init server 9000) wdl json_path dependencies false false w2 with
  | (Ok response, w') => (Ok (Returned response), w')
  | (Raise e, w') => (Raise e, w')
  end.
Proof.
  intros Hc Hv. unfold call_run. rewrite io_bind_eq, Hc. rewrite io_bind_eq.
  destruct validate.
  - rewrite io_bind_eq, Hv. cbn [length Nat.eqb negb mret io_ret].
    rewrite io_bind_eq.
    destruct (jstart_workflow env (init server 9000) wdl json_path dependencies false
                false w2) as [[r|e] w']; reflexivity.
  - subst w2. cbn [mret io_ret]. rewrite io_bind_eq.
    destruct (jstart_workflow env (init server 9000) wdl json_path dependencies false
                false w1) as [[r|e] w']; reflexivity.
Qed.

(** X28. When validation is not asked for, or finds nothing, [call_run]
    submits to the client of the server at port 9000 (8000 for
    [localhost]); for an inputs file that holds a JSON object the inputs
    posted carry the user, and what the service answers is returned. *)
Theorem call_run_posts_user (env : environment) (v : validator)
    (wdl json_path : string) (validate : bool) (dependencies : option string)
    (server : string) (w w1 w2 : list event) (text : string) (members : dict json) :
  construct v w = (Ok tt, w1) ->
  (if validate then validate_json v w1 = (Ok [], w2) else w2 = w1) ->
  startswith json_path "{" = false ->
  file_content env json_path = inr text ->
  json_loads env text = Ok (JDict members) ->
  sources_readable env wdl dependencies false = true ->
  exists files payload,
    call_run env v wdl json_path validate dependencies server w =
    (match http_post env (url (init server 9000)) files with
     | Ok response => Ok (Returned response)
     | Raise e => Raise e
     end,
     (w2 ++ [EvOpen json_path]) ++ form_events wdl dependencies false false
        ++ [EvPost (url (init server 9000)) files])
    /\ inputs_payload files = Some payload
    /\ has_user (getuser env) payload.
Proof.
  intros Hc Hv Hs Hf Hl Hsrc.
  rewrite (call_run_submits env v wdl json_path validate dependencies server w w1 w2 Hc Hv).
  destruct (jstart_workflow_posts env (init server 9000) wdl json_path dependencies false
              false w2 _ _ (j_args_file env json_path text members w2 Hs Hf Hl) Hsrc)
    as [files [Hrun Hpay]].
  exists files,
    (dumps (JDict (dict_items env (dict_set "user" (JStr (getuser env)) members)))).
  rewrite Hrun. split; [|split; [exact Hpay|]].
  - destruct (http_post env (url (init server 9000)) files); reflexivity.
  - eexists. split; [|reflexivity]. rewrite dict_get_items. apply dict_get_set.
Qed.

Lemma call_run_posts_user_witness :
  exists files payload,
    call_run (Example.env JNull) ExampleRun.lenient
      "hello.wdl" "inputs.json" true None "localhost" [] =
    (match http_post (Example.env JNull) (url (init "localhost" 9000)) files with
     | Ok response => Ok (Returned response)
     | Raise e => Raise e
     end,
     ([] ++ [EvOpen "inputs.json"]) ++ form_events "hello.wdl" None false false
        ++ [EvPost (url (init "localhost" 9000)) files])
    /\ inputs_payload files = Some payload
    /\ has_user (getuser (Example.env JNull)) payload.
Proof.
  apply (call_run_posts_user (Example.env JNull) ExampleRun.lenient
           "hello.wdl" "inputs.json" true None "localhost" [] [] [] "{}" []);
    reflexivity.
Defined.

(** X29. [call_run] hands the path of the inputs file to
    [jstart_workflow], which takes an argument beginning with a brace
    for the inputs themselves: for a file whose name begins with a brace
    the name is posted as the inputs, and the file is not opened. *)
Theorem call_run_brace_path (env : environment) (v : validator)
    (wdl json_path : string) (validate : bool) (dependencies : option string)
    (server : string) (w w1 w2 : list event) :
  construct v w = (Ok tt, w1) ->
  (if validate then validate_json v w1 = (Ok [], w2) else w2 = w1) ->
  startswith json_path "{" = true ->
  sources_readable env wdl dependencies false = true ->
  exists files,
    call_run env v wdl json_path validate dependencies server w =
    (match http_post env (url (init server 9000)) files with
     | Ok response => Ok (Returned response)
     | Raise e => Raise e
     end,
     w2 ++ form_events wdl dependencies false false
        ++ [EvPost (url (init server 9000)) files])
    /\ inputs_payload files = Some json_path.
Proof.
  intros Hc Hv Hs Hsrc.
  rewrite (call_run_submits env v wdl json_path validate dependencies server w w1 w2 Hc Hv).
  destruct (jstart_workflow_posts env (init server 9000) wdl json_path dependencies false
              false w2 _ _ (j_args_inline env json_path w2 Hs) Hsrc)
    as [files [Hrun Hpay]].
  exists files. rewrite Hrun. split; [|exact Hpay].
  destruct (http_post env (url (init server 9000)) files); reflexivity.
Qed.

Lemma call_run_brace_path_witness :
  exists files,
    call_run (Example.env JNull) ExampleRun.lenient
      "hello.wdl" "{inputs}.json" false None "localhost" [] =
    (match http_post (Example.env JNull) (url (init "localhost" 9000)) files with
     | Ok response => Ok (Returned response)
     | Raise e => Raise e
     end,
     [] ++ form_events "hello.wdl" None false false
        ++ [EvPost (url (init "localhost" 9000)) files])
    /\ inputs_payload files = Some "{inputs}.json"%string.
Proof.
  apply (call_run_brace_path (Example.env JNull) ExampleRun.lenient
           "hello.wdl" "{inputs}.json" false None "localhost" [] [] []);
    reflexivity.
Defined.

(** X30. [is_valid_zip] accepts a path exactly when the file exists and
    is a zip file, and returns it unchanged; a path that does not exist
    is reported as not a valid file path, whatever [is_zipfile] would say
    of it. *)
Theorem is_valid_zip_accepts (exists_ is_zipfile : string -> bool) (path : string) :
  (is_valid_zip exists_ is_zipfile path = ArgValue path
   <-> exists_ path = true /\ is_zipfile path = true)
  /\ (forall p, is_valid_zip exists_ is_zipfile path = ArgValue p -> p = path)
  /\ (exists_ path = false ->
      is_valid_zip exists_ is_zipfile path =
      ArgumentTypeError (path +:+ " is not a valid file path." +:+ newline)).
Proof.
  unfold is_valid_zip, is_valid.
  destruct (exists_ path), (is_zipfile path); cbn [negb];
    (split; [split; [intros H; try discriminate H; auto | intros [H1 H2]; try discriminate; reflexivity]|]);
    (split; [intros p [= <-]; reflexivity | intros H; try discriminate H; reflexivity]).
Qed.

End Commands.
